(** * QR-code PDF generator: the Express handler of [qr_pdf_app.js]

    A shallow embedding of the request handler [POST /generate-qr-pdf] and
    of [generateQRCode].  The libraries the handler calls ([qrcode],
    [sharp], [pdfkit]) are not part of the repository; they are the fields
    of a [Platform] record, and every call the handler makes to them is
    recorded, so that statements can speak about which stages ran and
    with which arguments.

    JavaScript numbers are IEEE-754 binary64 values.  The three numeric
    expressions of the handler are modelled with the rounding of the
    floating-point operations written out ([Binary64]), and then related
    to the exact rational formulas. *)

From Stdlib Require Import ZArith QArith Qround Qpower String List Lia Bool.
From stdpp Require Import base option gmap strings pretty.

#[local] Set Warnings "-register-all".
#[local] Open Scope Z_scope.

(** ** IEEE-754 binary64 arithmetic, as far as the handler needs it *)

Module Binary64.

(** A finite double is [Fnum * 2 ^ Fexp].  The exponent range is not
    modelled: pixel geometry stays far away from overflow and from
    subnormal numbers. *)
Record float := Float { Fnum : Z; Fexp : Z }.

Definition prec : Z := 53.

(** Nearest integer to [n / p] for [p > 0], ties to even. *)
Definition nearest_even (n p : Z) : Z :=
  let q := n / p in
  let r := n mod p in
  if 2 * r <? p then q
  else if p <? 2 * r then q + 1
  else if Z.even q then q else q + 1.

(** Number of low bits that do not fit in a 53-bit significand. *)
Definition excess (n : Z) : Z := Z.max 0 (Z.log2 (Z.abs n) + 1 - prec).

(** Round the exact value [n * 2 ^ e] to the nearest double. *)
Definition round (n e : Z) : float :=
  let s := excess n in
  Float (Z.sgn n * nearest_even (Z.abs n) (2 ^ s)) (e + s).

Definition of_Z (z : Z) : float := round z 0.

Definition mul (a b : float) : float :=
  round (Fnum a * Fnum b) (Fexp a + Fexp b).

Definition sub (a b : float) : float :=
  let e := Z.min (Fexp a) (Fexp b) in
  round (Fnum a * 2 ^ (Fexp a - e) - Fnum b * 2 ^ (Fexp b - e)) e.

(** [x / 2]: halving a binary floating-point number only lowers its
    exponent, no rounding takes place. *)
Definition div2 (a : float) : float := Float (Fnum a) (Fexp a - 1).

Definition is_zero (a : float) : bool := Fnum a =? 0.

(** [Math.round(x)]: the integer closest to [x], ties towards +infinity,
    that is [floor (x + 1/2)] computed exactly. *)
Definition Math_round (a : float) : Z :=
  if 0 <=? Fexp a then Fnum a * 2 ^ Fexp a
  else (Fnum a + 2 ^ (- Fexp a - 1)) / 2 ^ (- Fexp a).

(** The literals [0.03] and [0.9]: the doubles nearest to 3/100 and to
    9/10. *)
Definition lit_0_03 : float := Float 8646911284551352 (-58).
Definition lit_0_9 : float := Float 8106479329266893 (-53).

(** [a / b] rounded to the nearest double, for [b] other than zero (the
    infinities and NaN are not represented).  The quotient is cut after
    at least 55 bits and one more bit tells whether anything was cut,
    which is all that rounding to 53 bits needs. *)
Definition div (a b : float) : option float :=
  if Fnum b =? 0 then None
  else
    let k := Z.max 0 (prec + 2 + Z.log2 (Z.abs (Fnum b))
                      - Z.log2 (Z.abs (Fnum a))) in
    let n := Z.abs (Fnum a) * 2 ^ k in
    let q := n / Z.abs (Fnum b) in
    let sticky := if n mod Z.abs (Fnum b) =? 0 then 0 else 1 in
    Some (round (Z.sgn (Fnum a) * Z.sgn (Fnum b) * (2 * q + sticky))
                (Fexp a - Fexp b - k - 1)).

(** [Math.floor(x)] *)
Definition Math_floor (a : float) : Z :=
  if 0 <=? Fexp a then Fnum a * 2 ^ Fexp a
  else Fnum a / 2 ^ (- Fexp a).

(** Exact value of a double, for comparison with rational formulas. *)
Definition to_Q (a : float) : Q :=
  (inject_Z (Fnum a) * Qpower 2 (Fexp a))%Q.

End Binary64.

(** The rounding the specification speaks of: nearest integer, halves
    upwards. *)
Definition round_half_up (q : Q) : Z := Qfloor (q + (1 # 2))%Q.


(** ** JavaScript values, as [express.json()] hands them to the handler *)

Inductive JsNumber :=
| NaN
| Infinity (negative : bool)
| Finite (x : Binary64.float).

Inductive JsValue :=
| JUndefined
| JNull
| JBool (b : bool)
| JNumber (n : JsNumber)
| JString (s : string)
| JArray (items : list JsValue)
| JObject (fields : gmap string JsValue).

(** An object literal [{ k1: v1, k2: v2, ... }]. *)
Definition obj (fields : list (string * JsValue)) : JsValue :=
  JObject (list_to_map fields).

#[global] Arguments obj : simpl never.

(** Property access [o.k]: [undefined] when the object has no such key. *)
Definition get (o : gmap string JsValue) (k : string) : JsValue :=
  default JUndefined (o !! k).

(** [ToBoolean]: what [!v] and [v ? a : b] test. *)
Definition truthy (v : JsValue) : bool :=
  match v with
  | JUndefined | JNull => false
  | JBool b => b
  | JNumber NaN => false
  | JNumber (Infinity _) => true
  | JNumber (Finite x) => negb (Binary64.is_zero x)
  | JString s => negb (String.eqb s "")
  | JArray _ | JObject _ => true
  end.

Definition number_equal (x y : JsNumber) : bool :=
  match x, y with
  | Infinity a, Infinity b => Bool.eqb a b
  | Finite a, Finite b =>
      let e := Z.min (Binary64.Fexp a) (Binary64.Fexp b) in
      Binary64.Fnum a * 2 ^ (Binary64.Fexp a - e)
        =? Binary64.Fnum b * 2 ^ (Binary64.Fexp b - e)
  | _, _ => false
  end.

(** [a === b].  Arrays and objects are equal only to themselves (the same
    reference); a value parsed from a request body is never the object it
    is compared with, so the answer for them is [false]. *)
Definition strict_equal (a b : JsValue) : bool :=
  match a, b with
  | JUndefined, JUndefined => true
  | JNull, JNull => true
  | JBool x, JBool y => Bool.eqb x y
  | JNumber x, JNumber y => number_equal x y
  | JString x, JString y => String.eqb x y
  | _, _ => false
  end.

(** [process.env.X]: a string, or [undefined] when the variable is unset. *)
Definition env_value (v : option string) : JsValue :=
  from_option JString JUndefined v.

Record JsError := { name : string; message : string; stack : string }.

(** The result of a call that may throw, or of an awaited promise that
    may reject. *)
Inductive Outcome (A : Type) :=
| Return (a : A)
| Throw (e : JsError).

#[global] Arguments Return {A} a.
#[global] Arguments Throw {A} e.

Definition Buffer := list Byte.byte.

(** ** The interfaces of the libraries *)

Module QR.
Record Color := { dark : string; light : string }.
Record Options := {
  errorCorrectionLevel : string;
  margin : Z;
  width : Z;
  color : Color
}.
End QR.

Module Sharp.
Record Metadata := { width : Z; height : Z }.
Record Overlay := { input : Buffer; top : Z; left : Z }.
End Sharp.

Module PDF.
Record Options := { size : Z * Z; margin : Z }.

(** The drawing calls of [pdfkit] that the application uses, and
    [addPage], which it never calls. *)
Inductive Op :=
| Image (src : Buffer) (x y : Z) (width height : Z)
| Font (family : string)
| FontSize (points : Z)
| Text (text : JsValue) (x y : Z) (align : string) (width : Z)
| AddPage.

Inductive Call :=
| New (o : Options)
| Do (op : Op)
| End_.

(** A document: its constructor options, the calls made on it so far,
    whether it has been piped into the response and whether [end()]
    was called. *)
Record Document := {
  options : Options;
  ops : list Op;
  piped : bool;
  ended : bool
}.

(** [pdfkit] creates the first page itself ([autoFirstPage]); the
    application can ask for further ones with [addPage], and [pdfkit]
    opens further ones itself when text runs over the bottom of a page
    (see [PDFKit_pages] below). *)
Definition is_AddPage (o : Op) : bool :=
  match o with AddPage => true | _ => false end.


End PDF.

(** What lies outside the repository.  [World] is the state of the
    process environment at the time of a request (clock, file system,
    whatever the libraries read); each library call may depend on it. *)
Record Platform := {
  World : Type;
  Date_now : World -> Z;
  stack_trace : World -> string;
  QRCode_toBuffer : World -> JsValue -> QR.Options -> Outcome Buffer;
  sharp_toBuffer : World -> string -> Outcome Buffer;
  sharp_metadata : World -> Buffer -> Outcome Sharp.Metadata;
  sharp_composite : World -> Buffer -> list Sharp.Overlay -> Outcome Buffer;
  PDFKit_throws : World -> PDF.Call -> option JsError;
  PDFKit_bytes : World -> PDF.Document -> Buffer;
  (** the number of pages [pdfkit] lays the document out on *)
  PDFKit_pages : PDF.Document -> nat;
  image_size : Buffer -> option (Z * Z)
}.

(** ** The state a request runs in *)

Module Log.
Record Entry := {
  timestamp : Z;
  level : string;
  message : string;
  meta : list (string * JsValue)
}.
End Log.

(** A library call made while serving a request. *)
Inductive LibCall :=
| CallQRCode (text : JsValue) (o : QR.Options)
| CallSharpRead (path : string)
| CallSharpMetadata (image : Buffer)
| CallSharpComposite (base : Buffer) (overlays : list Sharp.Overlay).

(** What has been written to the HTTP response. *)
Inductive Chunk :=
| JsonText (v : JsValue)
| PdfData (complete : bool) (bytes : Buffer).

Record Response := {
  statusCode : Z;
  headers : list (string * string);
  sent : list Chunk;
  finished : bool
}.

Record ServerState := {
  log : list Log.Entry;
  calls : list LibCall;
  res : Response;
  doc : option PDF.Document
}.

Definition fresh_response : Response :=
  {| statusCode := 200; headers := []; sent := []; finished := false |}.

Definition initial_state : ServerState :=
  {| log := []; calls := []; res := fresh_response; doc := None |}.

Definition with_log (f : list Log.Entry -> list Log.Entry) (st : ServerState) :=
  {| log := f (log st); calls := calls st; res := res st; doc := doc st |}.

Definition with_calls (f : list LibCall -> list LibCall) (st : ServerState) :=
  {| log := log st; calls := f (calls st); res := res st; doc := doc st |}.

Definition with_res (f : Response -> Response) (st : ServerState) :=
  {| log := log st; calls := calls st; res := f (res st); doc := doc st |}.

Definition with_doc (d : option PDF.Document) (st : ServerState) :=
  {| log := log st; calls := calls st; res := res st; doc := d |}.

(** ** Statements that may throw, over the request state *)

Definition M (A : Type) : Type := ServerState -> Outcome A * ServerState.

#[global] Instance M_ret : MRet M := fun A a st => (Return a, st).

#[global] Instance M_bind : MBind M := fun A B f m st =>
  match m st with
  | (Return a, st') => f a st'
  | (Throw e, st') => (Throw e, st')
  end.

Definition throw {A} (e : JsError) : M A := fun st => (Throw e, st).

(** [try { body } catch (error) { handler error }] *)
Definition try_catch {A} (body : M A) (handler : JsError -> M A) : M A :=
  fun st =>
    match body st with
    | (Return a, st') => (Return a, st')
    | (Throw e, st') => handler e st'
    end.

(** A state change that cannot fail. *)
Definition modify (f : ServerState -> ServerState) : M unit :=
  fun st => (Return tt, f st).

(** A library call: note it, then take its outcome. *)
Definition call {A} (c : LibCall) (result : Outcome A) : M A :=
  fun st => (result, with_calls (fun l => l ++ [c]) st).

(** ** The application *)

(** [path.join] on a POSIX host. *)
Definition path_join (parts : list string) : string :=
  String.concat "/" parts.

Definition QR_SIZE : Z := 384.

(** A JavaScript number holding an integer. *)
Definition num (z : Z) : JsValue := JNumber (Finite (Binary64.of_Z z)).

Definition new_Error (stack_ : string) (msg : string) : JsError :=
  {| name := "Error"; message := msg; stack := stack_ |}.

Section Server.
Context (P : Platform).
(** [process.env.AUTH_SECRET] and [__dirname]. *)
Context (AUTH_SECRET : option string) (dirname : string).
Context (w : World P).

Definition TEMPLATE_PATH : string :=
  path_join [dirname; "assets"; "template-white-elegant.png"].

(** *** [logger]

    An entry carries the time it was written at; the clock is read
    once per request here. *)

Definition logger (level message : string)
    (meta : list (string * JsValue)) : M unit :=
  modify (with_log (fun l => l ++ [ {| Log.timestamp := Date_now P w;
                                       Log.level := level;
                                       Log.message := message;
                                       Log.meta := meta |} ])).

Definition logger_info := logger "info".
Definition logger_debug := logger "debug".
Definition logger_warn := logger "warn".
Definition logger_error := logger "error".

(** *** The response object *)

Definition res_setHeader (k v : string) : M unit :=
  modify (with_res (fun r => {| statusCode := statusCode r;
                                headers := headers r ++ [(k, v)];
                                sent := sent r;
                                finished := finished r |})).

Definition res_status (code : Z) : M unit :=
  modify (with_res (fun r => {| statusCode := code;
                                headers := headers r;
                                sent := sent r;
                                finished := finished r |})).

(** [res.json(v)] writes the serialised value and ends the response. *)
Definition res_json (v : JsValue) : M unit :=
  modify (with_res (fun r => {| statusCode := statusCode r;
                                headers := headers r;
                                sent := sent r ++ [JsonText v];
                                finished := true |})).

(** *** The libraries, as the handler calls them *)

Definition QRCode_toBuffer_ (text : JsValue) (o : QR.Options) : M Buffer :=
  call (CallQRCode text o) (QRCode_toBuffer P w text o).

Definition sharp_toBuffer_ (path : string) : M Buffer :=
  call (CallSharpRead path) (sharp_toBuffer P w path).

Definition sharp_metadata_ (image : Buffer) : M Sharp.Metadata :=
  call (CallSharpMetadata image) (sharp_metadata P w image).

Definition sharp_composite_ (base : Buffer) (overlays : list Sharp.Overlay)
  : M Buffer :=
  call (CallSharpComposite base overlays) (sharp_composite P w base overlays).

Definition pdf_guard (c : PDF.Call) : M unit :=
  match PDFKit_throws P w c with
  | Some e => throw e
  | None => mret tt
  end.

(** [new PDFDocument(options)] *)
Definition new_PDFDocument (o : PDF.Options) : M unit :=
  pdf_guard (PDF.New o);;
  modify (with_doc (Some {| PDF.options := o; PDF.ops := [];
                            PDF.piped := false; PDF.ended := false |})).

Definition update_doc (f : PDF.Document -> PDF.Document) : M unit :=
  modify (fun st => with_doc (f <$> doc st) st).

(** [doc.pipe(res)]: from now on what the document emits is written to
    the response, once the running synchronous code has finished. *)
Definition doc_pipe_res : M unit :=
  update_doc (fun d => {| PDF.options := PDF.options d; PDF.ops := PDF.ops d;
                          PDF.piped := true; PDF.ended := PDF.ended d |}).

Definition doc_do (op : PDF.Op) : M unit :=
  pdf_guard (PDF.Do op);;
  update_doc (fun d => {| PDF.options := PDF.options d;
                          PDF.ops := PDF.ops d ++ [op];
                          PDF.piped := PDF.piped d;
                          PDF.ended := PDF.ended d |}).

Definition doc_end : M unit :=
  pdf_guard PDF.End_;;
  update_doc (fun d => {| PDF.options := PDF.options d; PDF.ops := PDF.ops d;
                          PDF.piped := PDF.piped d; PDF.ended := true |}).

(** *** [generateQRCode] *)

Definition qr_options : QR.Options :=
  {| QR.errorCorrectionLevel := "H";
     QR.margin := 1;
     QR.width := QR_SIZE;
     QR.color := {| QR.dark := "#000000"; QR.light := "#ffffff" |} |}.

Definition generateQRCode (url : JsValue) : M Buffer :=
  try_catch
    (qrBuffer ← QRCode_toBuffer_ url qr_options;
     mret qrBuffer)
    (fun error =>
       logger_error "Error generating QR code"
         [("error", JString (message error)); ("url", url)];;
       throw (new_Error (stack_trace P w) "Failed to generate QR code")).

(** *** [app.post("/generate-qr-pdf", ...)]

    [body] is [req.body], the object the body parser made of the
    request. *)

Definition provided (v : JsValue) : JsValue :=
  JString (if truthy v then "provided" else "missing").

Definition error_meta (error : JsError) : JsValue :=
  obj [("name", JString (name error));
       ("message", JString (message error));
       ("stack", JString (stack error))].

Definition handler (body : gmap string JsValue) : M unit :=
  let requestId := JString (pretty (Date_now P w)) in
  logger_info "Starting new PDF generation request"
    [("requestId", requestId)];;
  try_catch
    (logger_debug "Raw request body received"
       [("requestId", requestId); ("body", JObject body)];;
     let url := get body "url" in
     let authSecret := get body "authSecret" in
     logger_debug "Request parameters received"
       [("requestId", requestId);
        ("urlProvided", JBool (truthy url));
        ("authSecretProvided", JBool (truthy authSecret))];;
     (* Validate all required parameters *)
     if negb (truthy url) || negb (truthy authSecret) then
       logger_warn "Validation failed - missing parameters"
         [("requestId", requestId);
          ("url", provided url);
          ("authSecret", provided authSecret)];;
       res_status 400;;
       res_json (obj [("error", JString "Missing required parameters");
                      ("details", obj [("url", provided url);
                                       ("authSecret", provided authSecret)])])
     else
       (* Validate authSecret *)
       logger_debug "Validating auth secret" [("requestId", requestId)];;
       if negb (strict_equal authSecret (env_value AUTH_SECRET)) then
         logger_warn "Authentication failed - invalid secret"
           [("requestId", requestId)];;
         res_status 401;;
         res_json (obj [("error", JString "Invalid authentication secret")])
       else
         logger_debug "Auth secret validated successfully"
           [("requestId", requestId)];;
         (* Generate QR code *)
         logger_debug "Generating QR code"
           [("requestId", requestId); ("url", url)];;
         qrCodeBuffer ← generateQRCode url;
         logger_debug "QR code generated successfully"
           [("requestId", requestId)];;
         (* Load the template image *)
         logger_debug "Loading template image" [("requestId", requestId)];;
         templateBuffer ← sharp_toBuffer_ TEMPLATE_PATH;
         logger_debug "Template image loaded successfully"
           [("requestId", requestId)];;
         (* Get template dimensions *)
         templateMetadata ← sharp_metadata_ templateBuffer;
         let templateWidth := Sharp.width templateMetadata in
         let templateHeight := Sharp.height templateMetadata in
         logger_debug "Template dimensions obtained"
           [("requestId", requestId);
            ("width", num templateWidth);
            ("height", num templateHeight)];;
         (* Calculate overlay position *)
         let qrOverlay :=
           {| Sharp.input := qrCodeBuffer;
              Sharp.top := 481;
              Sharp.left :=
                Binary64.Math_round
                  (Binary64.div2
                     (Binary64.sub (Binary64.of_Z templateWidth)
                                   (Binary64.of_Z QR_SIZE))) |} in
         logger_debug "QR code position calculated"
           [("requestId", requestId);
            ("position", obj [("top", num (Sharp.top qrOverlay));
                              ("left", num (Sharp.left qrOverlay))])];;
         (* Create processed image *)
         logger_debug "Compositing images" [("requestId", requestId)];;
         processedImage ← sharp_composite_ templateBuffer [qrOverlay];
         logger_debug "Image composition completed"
           [("requestId", requestId)];;
         (* Create PDF *)
         logger_debug "Creating PDF document" [("requestId", requestId)];;
         new_PDFDocument {| PDF.size := (templateWidth, templateHeight);
                            PDF.margin := 0 |};;
         (* Set response headers *)
         res_setHeader "Content-Type" "application/pdf";;
         res_setHeader "Content-Disposition"
           "attachment; filename=qr-instructions.pdf";;
         (* Pipe the PDF to the response *)
         doc_pipe_res;;
         (* Add the processed image *)
         logger_debug "Adding image to PDF" [("requestId", requestId)];;
         doc_do (PDF.Image processedImage 0 0 templateWidth templateHeight);;
         (* Add URL text *)
         let fontSize :=
           Binary64.Math_round
             (Binary64.mul (Binary64.of_Z templateWidth) Binary64.lit_0_03) in
         let textY :=
           Binary64.Math_round
             (Binary64.mul (Binary64.of_Z templateHeight) Binary64.lit_0_9) in
         logger_debug "Adding URL text to PDF"
           [("requestId", requestId);
            ("fontSize", num fontSize);
            ("textY", num textY)];;
         doc_do (PDF.Font "Helvetica-Bold");;
         doc_do (PDF.FontSize fontSize);;
         doc_do (PDF.Text url 0 textY "center" templateWidth);;
         (* Finalize PDF *)
         doc_end;;
         logger_info "PDF generation completed successfully"
           [("requestId", requestId)])
    (fun error =>
       logger_error "Error during PDF generation"
         [("requestId", requestId); ("error", error_meta error)];;
       res_status 500;;
       res_json (obj [("error", JString "Failed to process image");
                      ("details", JString (message error))])).

(** *** Delivery of the piped document

    The handler has no [await] between [doc.pipe(res)] and its end, and
    a piped stream hands its data over only after the running
    synchronous code has returned.  So the document's bytes reach the
    response after the handler body (or its [catch] block) is done: if
    [res.json] has ended the response by then, the response does not
    take them (what follows in the process is [request_and_after],
    below); otherwise they are written, and the response ends when the
    document has ended. *)
Definition deliver (st : ServerState) : ServerState :=
  match doc st with
  | Some d =>
      if PDF.piped d && negb (finished (res st)) then
        with_res (fun r =>
                    {| statusCode := statusCode r;
                       headers := headers r;
                       sent := sent r ++ [PdfData (PDF.ended d)
                                                  (PDFKit_bytes P w d)];
                       finished := PDF.ended d |}) st
      else st
  | None => st
  end.

(** One request, from the parsed body to the state it leaves behind. *)
Definition POST_generate_qr_pdf (body : gmap string JsValue) : ServerState :=
  deliver (snd (handler body initial_state)).

End Server.

(** ** Notions the statements use *)

(** The response carries the whole PDF and nothing else. *)
Definition complete_pdf (r : Response) : Prop :=
  statusCode r = 200 /\ finished r = true /\
  exists bytes, sent r = [PdfData true bytes].

(** The response carries one JSON error object and nothing else. *)
Definition json_error_only (r : Response) : Prop :=
  (statusCode r = 400 \/ statusCode r = 401 \/ statusCode r = 500) /\
  finished r = true /\
  exists v, sent r = [JsonText v].

(** No pipeline stage ran: no library was called and no document exists. *)
Definition no_stage_ran (st : ServerState) : Prop :=
  calls st = [] /\ doc st = None.

(** The overlay covers the columns of the raster it stamps, from column
    [Sharp.left] on; this is twice the x coordinate of its centre, as far
    as the raster decodes. *)
Definition overlay_center_x2 (P : Platform) (o : Sharp.Overlay) : option Z :=
  match image_size P (Sharp.input o) with
  | Some (columns, _) => Some (2 * Sharp.left o + columns)
  | None => None
  end.

Section Requests.
Context (P : Platform) (AUTH_SECRET : option string) (dirname : string).
Context (w : World P).

(** Both fields pass the presence test of the handler. *)
Definition fields_present (body : gmap string JsValue) : Prop :=
  truthy (get body "url") = true /\ truthy (get body "authSecret") = true.

Definition secret_matches (body : gmap string JsValue) : Prop :=
  strict_equal (get body "authSecret") (env_value AUTH_SECRET) = true.

Definition encodable (url : JsValue) : Prop :=
  exists qr, QRCode_toBuffer P w url qr_options = Return qr.

(** The template asset decodes to [tmpl], of [W] by [H] pixels. *)
Definition template_is (tmpl : Buffer) (W H : Z) : Prop :=
  sharp_toBuffer P w (TEMPLATE_PATH dirname) = Return tmpl /\
  sharp_metadata P w tmpl
    = Return {| Sharp.width := W; Sharp.height := H |}.

(** What a request must bring, and the installation have, for the
    handler to get as far as compositing: present fields, the matching
    secret, an encodable URL, and a template that is read and measured. *)
Definition valid_input (body : gmap string JsValue)
    (tmpl : Buffer) (W H : Z) : Prop :=
  fields_present body /\ secret_matches body /\
  encodable (get body "url") /\
  template_is tmpl W H.

(** None of the compositing and PDF calls the handler made for this
    request raised an error: the document was constructed and ended. *)
Definition rendering_succeeds (body : gmap string JsValue) : Prop :=
  exists d,
    doc (POST_generate_qr_pdf P AUTH_SECRET dirname w body) = Some d /\
    PDF.ended d = true.

(** A valid request: present fields, matching secret, encodable URL,
    served without a library error. *)
Definition valid_request (body : gmap string JsValue)
    (tmpl : Buffer) (W H : Z) : Prop :=
  valid_input body tmpl W H /\ rendering_succeeds body.
End Requests.


(** ** After the response

    [process.on("uncaughtException", ...)]: the error is logged and the
    process exits with code 1. *)
Record ProcessState := {
  output : list Log.Entry;
  exit_code : option Z
}.

Definition on_uncaughtException (P : Platform) (w : World P)
    (error : JsError) (entries : list Log.Entry) : ProcessState :=
  {| output := entries ++ [ {| Log.timestamp := Date_now P w;
                               Log.level := "error";
                               Log.message := "Uncaught exception";
                               Log.meta := [("error", error_meta error)] |} ];
     exit_code := Some 1 |}.

(** A request together with what follows it in the process.  When a
    document was piped into a response that [res.json] has ended, the
    data the document has buffered is written to the ended response
    once the handler has returned; the stream raises "write after end",
    nobody listens for it, and it arrives at the [uncaughtException]
    handler. *)
Definition request_and_after (P : Platform) (AUTH_SECRET : option string)
    (dirname : string) (w : World P) (body : gmap string JsValue)
    : ProcessState :=
  let st := snd (handler P AUTH_SECRET dirname w body initial_state) in
  match doc st with
  | Some d =>
      if PDF.piped d && finished (res st) then
        on_uncaughtException P w
          (new_Error (stack_trace P w) "write after end") (log st)
      else {| output := log st; exit_code := None |}
  | None => {| output := log st; exit_code := None |}
  end.

(** ** The start of the process *)

(** [process.env.PORT || 3002] *)
Definition port (PORT : option string) : JsValue :=
  if truthy (env_value PORT) then env_value PORT else num 3002.

(** [!!process.env.AUTH_SECRET] *)
Definition authConfigured (AUTH_SECRET : option string) : bool :=
  truthy (env_value AUTH_SECRET).

(** The entry logged when the module is loaded. *)
Definition startup (P : Platform) (w : World P)
    (PORT AUTH_SECRET : option string) (dirname : string) : M unit :=
  logger_info P w "Starting application with configuration"
    [("port", port PORT);
     ("templatePath", JString (TEMPLATE_PATH dirname));
     ("qrSize", num QR_SIZE);
     ("authConfigured", JBool (authConfigured AUTH_SECRET))].

(** ** Notions for the properties of whole requests *)

(** The error [e] was raised by one of the image or PDF library calls. *)
Definition thrown_by_library (P : Platform) (w : World P) (e : JsError) : Prop :=
  (exists p, sharp_toBuffer P w p = Throw e) \/
  (exists b, sharp_metadata P w b = Throw e) \/
  (exists b o, sharp_composite P w b o = Throw e) \/
  (exists c, PDFKit_throws P w c = Some e).

(** The encoder raised [e] for this text. *)
Definition encoder_throws (P : Platform) (w : World P) (text : JsValue)
    (e : JsError) : Prop :=
  QRCode_toBuffer P w text qr_options = Throw e.

(** Some overlay was composited onto [tmpl] without error. *)
Definition composited_onto (P : Platform) (w : World P) (tmpl : Buffer) : Prop :=
  exists ov img, sharp_composite P w tmpl [ov] = Return img.

(** The library stages as far as they were reached: every stage in
    [trace] but the last returned, and a trace shorter than four calls
    ends with the stage that raised an error. *)
Definition stages_reached (P : Platform) (dirname : string) (w : World P)
    (url : JsValue) (trace : list LibCall) : Prop :=
  trace = [] \/
  (exists e, QRCode_toBuffer P w url qr_options = Throw e /\
             trace = [CallQRCode url qr_options]) \/
  (exists qr, QRCode_toBuffer P w url qr_options = Return qr /\
     ((exists e, sharp_toBuffer P w (TEMPLATE_PATH dirname) = Throw e /\
                 trace = [CallQRCode url qr_options;
                          CallSharpRead (TEMPLATE_PATH dirname)]) \/
      (exists tmpl, sharp_toBuffer P w (TEMPLATE_PATH dirname) = Return tmpl /\
         ((exists e, sharp_metadata P w tmpl = Throw e /\
                     trace = [CallQRCode url qr_options;
                              CallSharpRead (TEMPLATE_PATH dirname);
                              CallSharpMetadata tmpl]) \/
          (exists size ov, sharp_metadata P w tmpl = Return size /\
                           Sharp.input ov = qr /\
                           trace = [CallQRCode url qr_options;
                                    CallSharpRead (TEMPLATE_PATH dirname);
                                    CallSharpMetadata tmpl;
                                    CallSharpComposite tmpl [ov]]))))).

(** ** A small installation to run the handler on *)

Module Demo.

Definition byte_of (z : Z) : Byte.byte :=
  default Byte.x00 (Byte.of_N (Z.to_N z)).

Definition be16 (z : Z) : Buffer := [byte_of (z / 256); byte_of (z mod 256)].

Definition Z_of_byte (b : Byte.byte) : Z := Z.of_N (Byte.to_N b).

(** A toy raster format: width and height on two bytes each, then
    the payload. *)
Definition raster (width height : Z) (payload : Buffer) : Buffer :=
  be16 width ++ be16 height ++ payload.

Definition raster_size (b : Buffer) : option (Z * Z) :=
  match b with
  | a :: b :: c :: d :: _ =>
      Some (256 * Z_of_byte a + Z_of_byte b, 256 * Z_of_byte c + Z_of_byte d)
  | _ => None
  end.

Definition failure (msg : string) : JsError :=
  {| name := "Error"; message := msg; stack := "Error: " ++ msg |}.

(** Strings of up to 1273 bytes are encoded, anything else is refused;
    so is a width that the two-byte header cannot hold. *)
Definition encode (text : JsValue) (o : QR.Options) : Outcome Buffer :=
  match text with
  | JString s =>
      if negb ((0 <=? QR.width o) && (QR.width o <? 65536))
      then Throw (failure "unsupported width")
      else if (String.length s <=? 1273)%nat
      then Return (raster (QR.width o) (QR.width o) (list_byte_of_string s))
      else Throw (failure "The amount of data is too big to be stored in a QR Code")
  | _ => Throw (failure "bad input")
  end.

Definition template : Buffer := raster 1000 1414 [].

Definition read (path : string) : Outcome Buffer :=
  if String.eqb path "/srv/qr/assets/template-white-elegant.png"
  then Return template
  else Throw (failure "Input file is missing").

Definition metadata (b : Buffer) : Outcome Sharp.Metadata :=
  match raster_size b with
  | Some (wd, ht) => Return {| Sharp.width := wd; Sharp.height := ht |}
  | None => Throw (failure "Input buffer contains unsupported image format")
  end.

Definition composite (base : Buffer) (ovs : list Sharp.Overlay)
  : Outcome Buffer :=
  Return (base ++ List.concat (List.map Sharp.input ovs)).

Definition op_bytes (o : PDF.Op) : Buffer :=
  match o with
  | PDF.Image src _ _ _ _ => src
  | PDF.Text (JString s) _ y _ _ => be16 y ++ list_byte_of_string s
  | PDF.FontSize n => be16 n
  | _ => []
  end.

Definition serialise (d : PDF.Document) : Buffer :=
  list_byte_of_string "%PDF-1.3"
    ++ be16 (fst (PDF.size (PDF.options d)))
    ++ be16 (snd (PDF.size (PDF.options d)))
    ++ List.concat (List.map op_bytes (PDF.ops d)).

(** Pages in the manner of [pdfkit]: the text is broken into lines
    of the width of its box, a glyph of Helvetica-Bold being counted as
    556 thousandths of the font size wide and a line as 1190 thousandths
    high; a line that does not fit above the bottom edge of the page goes
    to a new page. *)
Definition lines_of (chars fontSize width : Z) : Z :=
  if fontSize <=? 0 then 1
  else
    let per_line := Z.max 1 (width * 1000 / (556 * fontSize)) in
    Z.max 1 ((chars + per_line - 1) / per_line).

Definition text_pages (height fontSize : Z) (o : PDF.Op) : Z :=
  match o with
  | PDF.Text (JString s) _ y _ width =>
      if fontSize <=? 0 then 0
      else
        let lines := lines_of (Z.of_nat (String.length s)) fontSize width in
        let fit_first := Z.max 0 ((height - y) * 1000 / (1190 * fontSize)) in
        let fit_page := Z.max 1 (height * 1000 / (1190 * fontSize)) in
        if lines <=? fit_first then 0
        else (lines - fit_first + fit_page - 1) / fit_page
  | _ => 0
  end.

Definition font_size_of (ops : list PDF.Op) : Z :=
  List.fold_left (fun size o => match o with
                                | PDF.FontSize n => n
                                | _ => size
                                end) ops 12.

Definition pages (d : PDF.Document) : nat :=
  let height := snd (PDF.size (PDF.options d)) in
  let size := font_size_of (PDF.ops d) in
  S (List.length (List.filter PDF.is_AddPage (PDF.ops d))
     + Z.to_nat (List.fold_left
                   (fun n o => n + text_pages height size o) (PDF.ops d) 0)).

(** The size computation of the renderer of the [qrcode] package:
    [Math.floor((modules + margin * 2) * scale)] with
    [scale = width / (modules + margin * 2)], in doubles. *)
Definition rendered_side (modules : Z) (o : QR.Options) : Z :=
  let n := Binary64.of_Z (modules + QR.margin o * 2) in
  match Binary64.div (Binary64.of_Z (QR.width o)) n with
  | Some scale => Binary64.Math_floor (Binary64.mul n scale)
  | None => 0
  end.






(** The world is the clock, in milliseconds. *)
Definition platform : Platform :=
  {| World := Z;
     Date_now := fun t => t;
     stack_trace := fun _ => "Error at generateQRCode";
     QRCode_toBuffer := fun _ => encode;
     sharp_toBuffer := fun _ => read;
     sharp_metadata := fun _ => metadata;
     sharp_composite := fun _ => composite;
     PDFKit_throws := fun _ _ => None;
     PDFKit_bytes := fun _ => serialise;
     PDFKit_pages := pages;
     image_size := raster_size |}.

(** The same installation with a PDF library that cannot lay out text. *)
Definition no_text (c : PDF.Call) : option JsError :=
  match c with
  | PDF.Do (PDF.Text _ _ _ _ _) => Some (failure "cannot lay out text")
  | _ => None
  end.

Definition platform_no_text : Platform :=
  {| World := Z;
     Date_now := fun t => t;
     stack_trace := fun _ => "Error at generateQRCode";
     QRCode_toBuffer := fun _ => encode;
     sharp_toBuffer := fun _ => read;
     sharp_metadata := fun _ => metadata;
     sharp_composite := fun _ => composite;
     PDFKit_throws := fun _ => no_text;
     PDFKit_bytes := fun _ => serialise;
     PDFKit_pages := pages;
     image_size := raster_size |}.




Definition secret : option string := Some "s3cret".
Definition dir : string := "/srv/qr".

Definition request (url authSecret : JsValue) : gmap string JsValue :=
  <["url" := url]> (<["authSecret" := authSecret]> ∅).

Definition good : gmap string JsValue :=
  request (JString "https://example.com/x") (JString "s3cret").

Definition serve (body : gmap string JsValue) : ServerState :=
  POST_generate_qr_pdf platform secret dir 1700000000000 body.


Definition catalogue_url : JsValue :=
  JString
    (String.append "https://example.com/catalogue/"
       (String.concat "/"
          (List.map (String.append "section-")
             ["01"; "02"; "03"; "04"; "05"; "06"; "07"; "08"; "09";
              "10"; "11"; "12"; "13"; "14"; "15"; "16"; "17"]))).

End Demo.


(** * Proofs *)

(** ** Rounding *)

Module Binary64Facts.
Import Binary64.

Lemma nearest_even_bounds (n p : Z) :
  0 < p ->
  2 * n - p <= 2 * (nearest_even n p * p) <= 2 * n + p.
Proof.
  intros Hp. unfold nearest_even.
  pose proof (Z.div_mod n p ltac:(lia)) as Hdm.
  pose proof (Z.mod_pos_bound n p Hp) as Hr.
  set (q := n / p) in *. set (r := n mod p) in *.
  destruct (2 * r <? p) eqn:E1; [apply Z.ltb_lt in E1; nia|].
  apply Z.ltb_ge in E1.
  destruct (p <? 2 * r) eqn:E2; [apply Z.ltb_lt in E2; nia|].
  apply Z.ltb_ge in E2.
  destruct (Z.even q); nia.
Qed.

Lemma nearest_even_one (n : Z) : nearest_even n 1 = n.
Proof.
  unfold nearest_even. rewrite Z.mod_1_r, Z.div_1_r. reflexivity.
Qed.

Lemma excess_small (n : Z) : Z.abs n < 2 ^ prec -> excess n = 0.
Proof.
  intros H. unfold excess.
  destruct (Z.eq_dec (Z.abs n) 0) as [E|E].
  - rewrite E. reflexivity.
  - assert (Z.log2 (Z.abs n) < prec) by (apply Z.log2_lt_pow2; lia).
    lia.
Qed.

Lemma excess_spec (n : Z) :
  0 < n -> 0 <= excess n /\ n < 2 ^ prec * 2 ^ excess n /\ excess n <= Z.log2 n.
Proof.
  intros Hn. unfold excess. rewrite (Z.abs_eq n) by lia.
  pose proof (Z.log2_spec n Hn) as [_ Hup].
  pose proof (Z.log2_nonneg n) as Hl.
  unfold prec in *.
  destruct (Z.max_spec 0 (Z.log2 n + 1 - 53)) as [[Hc ->]|[Hc ->]].
  - split; [lia|]. split; [|lia].
    rewrite <- Z.pow_add_r by lia.
    replace (53 + (Z.log2 n + 1 - 53)) with (Z.succ (Z.log2 n)) by lia. exact Hup.
  - split; [lia|]. split; [|lia].
    rewrite Z.pow_0_r, Z.mul_1_r.
    eapply Z.lt_le_trans; [exact Hup|].
    apply Z.pow_le_mono_r; lia.
Qed.

Lemma of_Z_exact (z : Z) : Z.abs z < 2 ^ prec -> of_Z z = Float z 0.
Proof.
  intros H. unfold of_Z, round. rewrite (excess_small z H).
  rewrite Z.pow_0_r, nearest_even_one. f_equal. destruct z; reflexivity.
Qed.


Lemma excess_le (n B : Z) :
  0 < n < 2 ^ (prec + B) -> 0 <= B -> excess n <= B.
Proof.
  intros [Hn Hlt] HB. unfold excess.
  rewrite (Z.abs_eq n) by lia.
  assert (Z.log2 n < prec + B) by (apply Z.log2_lt_pow2; lia).
  lia.
Qed.

(** Multiplying a pixel count [W] by a literal [Float M (-k)] that is
    the double nearest to the decimal [a / b], and rounding the
    product with [Math.round], gives the exact [floor (a*W/b + 1/2)]. *)
Lemma Math_round_mul_literal (M k a b d W : Z) :
  2 ^ 52 <= M < 2 ^ 53 ->
  32 <= k ->
  0 < a -> 0 < b -> Z.even b = true ->
  b * M = a * 2 ^ k + d ->
  2 * Z.abs d * 2 ^ 53 < b * M ->
  2 ^ 32 * Z.abs d + b * 2 ^ 31 < 2 ^ k ->
  0 <= W <= 2 ^ 31 ->
  Math_round (mul (of_Z W) (Float M (- k))) = (2 * a * W + b) / (2 * b).
Proof.
  intros HM Hk Ha Hb Hev HbM Hlo Hhi HW.
  assert (HWp : Z.abs W < 2 ^ prec) by (unfold prec; lia).
  rewrite (of_Z_exact W HWp). unfold mul; cbn [Fnum Fexp].
  destruct (Z.eq_dec W 0) as [->|HW0].
  { (* nothing to round *)
    assert (E0 : round (0 * M) (0 + - k) = Float 0 (- k)).
    { replace (0 * M) with 0 by lia. unfold round.
      replace (excess 0) with 0 by reflexivity. f_equal. lia. }
    rewrite E0. unfold Math_round; cbn [Fnum Fexp].
    destruct (0 <=? - k) eqn:E; [apply Z.leb_le in E; lia|].
    rewrite Z.add_0_l, Z.opp_involutive.
    rewrite Z.div_small.
    - symmetry. apply Z.div_small. lia.
    - split; [apply Z.pow_nonneg; lia|]. apply Z.pow_lt_mono_r; lia. }
  set (N := W * M).
  assert (HN : 0 < N) by (unfold N; nia).
  assert (HNup : N < 2 ^ (prec + 31)).
  { unfold prec. replace (2 ^ (53 + 31)) with (2 ^ 31 * 2 ^ 53) by reflexivity.
    unfold N. nia. }
  destruct (excess_spec N HN) as (Hs0 & HNs & _).
  pose proof (excess_le N 31 (conj HN HNup) ltac:(lia)) as Hs31.
  unfold round. rewrite (Z.abs_eq N), (Z.sgn_pos N), Z.mul_1_l by lia.
  set (s := excess N) in *.
  pose proof (nearest_even_bounds N (2 ^ s) ltac:(apply Z.pow_pos_nonneg; lia))
    as Hm.
  set (m := nearest_even N (2 ^ s)) in *.
  unfold Math_round; cbn [Fnum Fexp].
  rewrite Z.add_0_l.
  destruct (0 <=? - k + s) eqn:E; [apply Z.leb_le in E; lia|clear E].
  replace (- (- k + s) - 1) with (k - s - 1) by lia.
  replace (- (- k + s)) with (Z.succ (k - s - 1)) by lia.
  rewrite Z.pow_succ_r by lia.
  (* powers of two as plain variables *)
  assert (HT : 2 ^ k = 2 * (2 ^ s * 2 ^ (k - s - 1))).
  { rewrite <- Z.pow_add_r by lia. rewrite <- Z.pow_succ_r by lia.
    f_equal. lia. }
  assert (HP : 0 < 2 ^ s <= 2 ^ 31).
  { split; [apply Z.pow_pos_nonneg; lia|apply Z.pow_le_mono_r; lia]. }
  assert (HQ : 0 < 2 ^ (k - s - 1)) by (apply Z.pow_pos_nonneg; lia).
  unfold prec in HNs.
  set (P := 2 ^ s) in *. set (Q' := 2 ^ (k - s - 1)) in *.
  set (T := 2 ^ k) in *.
  (* the quotient on the right-hand side *)
  pose proof (Z.div_mod (2 * a * W + b) (2 * b) ltac:(lia)) as Hdm.
  pose proof (Z.mod_pos_bound (2 * a * W + b) (2 * b) ltac:(lia)) as Hrem.
  set (r := (2 * a * W + b) / (2 * b)) in *.
  set (t := (2 * a * W + b) mod (2 * b)) in *.
  assert (Ht : t <= 2 * b - 2).
  { destruct (Z.even_spec b) as [Heven _]. destruct (Heven Hev) as [b' Hb'].
    assert (Hpar : exists t', t = 2 * t').
    { exists (a * W + b' - 2 * b' * r). lia. }
    destruct Hpar as [t' Ht']. lia. }
  symmetry. apply (Z.div_unique_pos _ _ _ (m + Q' - 2 * Q' * r)); [|lia].
  assert (HbN : b * N = a * W * T + W * d).
  { unfold N. replace (b * (W * M)) with (W * (b * M)) by ring.
    rewrite HbM. ring. }
  assert (HWP : W * M < 2 ^ 53 * P) by (fold N; lia).
  assert (Hd0 : 0 <= Z.abs d) by apply Z.abs_nonneg.
  assert (HWd : - (W * Z.abs d) <= W * d <= W * Z.abs d).
  { destruct (Z.abs_spec d) as [[Hd ->]|[Hd ->]].
    - assert (0 <= W * d) by (apply Z.mul_nonneg_nonneg; lia). lia.
    - assert (0 <= W * - d) by (apply Z.mul_nonneg_nonneg; lia).
      replace (W * d) with (- (W * - d)) by ring. lia. }
  assert (Hslack : 2 * (W * Z.abs d) < b * P).
  { apply (Z.mul_lt_mono_pos_r (2 ^ 53)); [lia|].
    apply Z.le_lt_trans with (W * (b * M)).
    - replace (2 * (W * Z.abs d) * 2 ^ 53) with (W * (2 * Z.abs d * 2 ^ 53)) by ring.
      apply Z.mul_le_mono_nonneg_l; lia.
    - replace (W * (b * M)) with (b * (W * M)) by ring.
      replace (b * P * 2 ^ 53) with (b * (2 ^ 53 * P)) by ring.
      apply Z.mul_lt_mono_pos_l; lia. }
  assert (HWd31 : W * Z.abs d <= 2 ^ 31 * Z.abs d).
  { apply Z.mul_le_mono_nonneg_r; lia. }
  assert (HbP : b * P <= b * 2 ^ 31).
  { apply Z.mul_le_mono_nonneg_l; lia. }
  assert (HaWT : (2 * b * r - b) * T <= 2 * (a * W * T)
                 /\ 2 * (a * W * T) <= (2 * b * r + b - 2) * T).
  { assert (0 < T) by (unfold T; apply Z.pow_pos_nonneg; lia).
    replace (2 * (a * W * T)) with ((2 * a * W) * T) by ring.
    split; apply Z.mul_le_mono_nonneg_r; lia. }
  assert (HmP : b * (2 * N - P) <= b * (2 * (m * P)) <= b * (2 * N + P)).
  { split; apply Z.mul_le_mono_nonneg_l; lia. }
  assert (HbP0 : 0 < 2 * b * P) by lia.
  split.
  - (* lower bound, using that both sides are integers *)
    assert (Hlow : (2 * r - 1) * Q' - 1 < m); [|lia].
    apply (Z.mul_lt_mono_pos_r (2 * b * P)); [exact HbP0|].
    replace (((2 * r - 1) * Q' - 1) * (2 * b * P))
      with ((2 * b * r - b) * T - 2 * (b * P)) by (rewrite HT; ring).
    replace (m * (2 * b * P)) with (b * (2 * (m * P))) by ring.
    lia.
  - assert (Hup : m < (2 * r + 1) * Q'); [|lia].
    apply (Z.mul_lt_mono_pos_r (2 * b * P)); [exact HbP0|].
    replace ((2 * r + 1) * Q' * (2 * b * P))
      with ((2 * b * r + b) * T) by (rewrite HT; ring).
    replace (m * (2 * b * P)) with (b * (2 * (m * P))) by ring.
    unfold T in *. lia.
Qed.


Lemma Math_round_times_0_03 (W : Z) :
  0 <= W <= 2 ^ 31 ->
  Math_round (mul (of_Z W) lit_0_03) = (6 * W + 100) / 200.
Proof.
  intros HW. unfold lit_0_03. change (-58) with (- (58)).
  rewrite (Math_round_mul_literal 8646911284551352 58 3 100 (-32) W);
    first [reflexivity | lia].
Qed.

Lemma Math_round_times_0_9 (H : Z) :
  0 <= H <= 2 ^ 31 ->
  Math_round (mul (of_Z H) lit_0_9) = (18 * H + 10) / 20.
Proof.
  intros HH. unfold lit_0_9. change (-53) with (- (53)).
  rewrite (Math_round_mul_literal 8106479329266893 53 9 10 2 H);
    first [reflexivity | lia].
Qed.

Lemma Math_round_half_difference (W S : Z) :
  Z.abs W < 2 ^ 52 -> Z.abs S < 2 ^ 52 ->
  Math_round (div2 (sub (of_Z W) (of_Z S))) = (W - S + 1) / 2.
Proof.
  intros HW HS.
  rewrite !of_Z_exact by (unfold prec; lia).
  unfold sub; cbn [Fnum Fexp].
  change (Z.min 0 0) with 0. change (0 - 0) with 0.
  rewrite Z.pow_0_r, !Z.mul_1_r.
  fold (of_Z (W - S)). rewrite of_Z_exact by (unfold prec; lia).
  reflexivity.
Qed.

End Binary64Facts.

(** The same three quantities, as the exact rational formulas. *)

Lemma round_half_up_centre (W S : Z) :
  round_half_up ((inject_Z W - inject_Z S) / 2) = (W - S + 1) / 2.
Proof.
  unfold round_half_up, Qfloor, Qdiv, Qminus, Qplus, Qmult, Qinv, Qopp, inject_Z.
  cbn [Qnum Qden Pos.mul Z.pos_sub Z.of_nat].
  replace ((W * 1 + - S * 1) * 1 * 2 + 1 * Z.pos (1 * 1 * 2))
    with ((W - S + 1) * 2) by (cbn; lia).
  change (Z.pos (1 * 1 * 2 * 2)) with (2 * 2).
  rewrite Z.div_mul_cancel_r by lia. reflexivity.
Qed.



(** The literals are the doubles nearest to the decimals they are
    written as: normalised significands, and within half a unit in the
    last place of 3/100 and of 9/10. *)
Lemma literals_are_nearest :
  let in_range m := 2 ^ 52 <= m < 2 ^ 53 in
  in_range (Binary64.Fnum Binary64.lit_0_03) /\
  in_range (Binary64.Fnum Binary64.lit_0_9) /\
  2 * Z.abs (100 * Binary64.Fnum Binary64.lit_0_03 - 3 * 2 ^ 58) <= 100 /\
  2 * Z.abs (10 * Binary64.Fnum Binary64.lit_0_9 - 9 * 2 ^ 53) <= 10.
Proof. cbv zeta. cbn [Binary64.lit_0_03 Binary64.lit_0_9 Binary64.Fnum]. lia. Qed.
Module Binary64Exact.
Import Binary64 Binary64Facts.

(** [round] returns a nearest double: the significand fits in 53 bits
  (2^53 itself when the rounding carries), and the result is within half
  a unit in the last place of the exact value. *)
Lemma round_is_nearest (n e : Z) :
let s := excess n in
Fexp (round n e) = e + s /\
Z.abs (Fnum (round n e)) <= 2 ^ prec /\
2 * Z.abs (Fnum (round n e) * 2 ^ s - n) <= 2 ^ s.
Proof.
cbv zeta. unfold round; cbn [Fnum Fexp]. split; [reflexivity|].
destruct (Z.eq_dec n 0) as [->|Hn0].
{ change (excess 0) with 0. cbn. split; lia. }
assert (Hn : 0 < Z.abs n) by lia.
destruct (excess_spec (Z.abs n) Hn) as (Hs0 & Hlt & Hlog).
assert (Es : excess (Z.abs n) = excess n).
{ unfold excess. rewrite Z.abs_idemp. reflexivity. }
rewrite Es in *.
assert (HP : 0 < 2 ^ excess n) by (apply Z.pow_pos_nonneg; lia).
assert (HPn : 2 ^ excess n <= Z.abs n).
{ apply Z.le_trans with (2 ^ Z.log2 (Z.abs n)).
  - apply Z.pow_le_mono_r; lia.
  - apply Z.log2_spec. exact Hn. }
pose proof (nearest_even_bounds (Z.abs n) (2 ^ excess n) HP) as Hm.
set (P := 2 ^ excess n) in *.
set (m := nearest_even (Z.abs n) P) in *.
assert (Hm0 : 0 <= m).
{ apply Z.mul_le_mono_pos_r with (p := 2 * P); lia. }
assert (Hm53 : m <= 2 ^ prec).
{ assert (2 * m < 2 * 2 ^ prec + 1); [|lia].
  apply Z.mul_lt_mono_pos_r with (p := P); [exact HP|].
  replace (2 * m * P) with (2 * (m * P)) by ring.
  replace ((2 * 2 ^ prec + 1) * P) with (2 * (2 ^ prec * P) + P) by ring.
  lia. }
destruct (Z.abs_spec n) as [[Hpos E]|[Hneg E]]; rewrite E in *.
- rewrite Z.sgn_pos, Z.mul_1_l by lia. split; lia.
- rewrite Z.sgn_neg by lia.
  replace (-1 * m * P - n) with (- (m * P - - n)) by ring.
  rewrite Z.abs_opp. split; lia.
Qed.

(** Ties go to the even significand. *)
Example round_ties_to_even :
of_Z (2 ^ 53 + 1) = Float (2 ^ 52) 1 /\
of_Z (2 ^ 53 + 3) = Float (2 ^ 52 + 2) 1 /\
mul (of_Z 50) lit_0_03 = Float (3 * 2 ^ 51) (-52).
Proof. repeat split. Qed.

(** [Math_round] is the rounding of the specification, applied to the
  exact value of the double. *)
Lemma Math_round_exact (a : float) :
Math_round a = round_half_up (to_Q a).
Proof.
destruct a as [m e]. unfold Math_round, to_Q, round_half_up; cbn [Fnum Fexp].
destruct (0 <=? e) eqn:E.
- apply Z.leb_le in E.
  transitivity (Qfloor (inject_Z (m * 2 ^ e) + (1 # 2))%Q).
  + unfold Qfloor, Qplus, inject_Z. cbn [Qnum Qden Pos.mul].
    replace (m * 2 ^ e * 2 + 1 * 1) with (1 + m * 2 ^ e * 2) by lia.
    change (Z.pos 2) with 2.
    rewrite Z.div_add by lia. reflexivity.
  + apply Qfloor_comp.
    rewrite inject_Z_mult, (Zpower_Qpower 2 e E). reflexivity.
- apply Z.leb_gt in E.
  destruct e as [|p|p]; try lia. clear E.
  change (- Z.neg p) with (Z.pos p).
  assert (HD : 0 < 2 ^ Z.pos p) by (apply Z.pow_pos_nonneg; lia).
  assert (Hhalf : 2 ^ Z.pos p = 2 * 2 ^ (Z.pos p - 1)).
  { rewrite <- Z.pow_succ_r by lia. f_equal. lia. }
  transitivity
    (Qfloor (inject_Z (2 * (m + 2 ^ (Z.pos p - 1)))
             / inject_Z (2 * 2 ^ Z.pos p))%Q).
  + destruct (2 ^ Z.pos p) as [|D|D] eqn:ED; try lia.
    change (2 * Z.pos D) with (Z.pos D~0).
    unfold Qfloor, Qdiv, Qmult, Qinv, inject_Z. cbn [Qnum Qden].
    rewrite Z.mul_1_r.
    change (Z.pos (1 * D~0)) with (2 * Z.pos D).
    rewrite Z.div_mul_cancel_l by lia. reflexivity.
  + apply Qfloor_comp.
    change (Qpower 2 (Z.neg p)) with (/ Qpower 2 (Z.pos p))%Q.
    rewrite <- (Zpower_Qpower 2 (Z.pos p)) by lia.
    rewrite !inject_Z_mult, inject_Z_plus. rewrite Hhalf at 2.
    rewrite inject_Z_mult.
    assert (Hne : ~ (inject_Z (2 ^ Z.pos p) == 0)%Q).
    { intros H0. apply (Qeq_bool_neq (inject_Z (2 ^ Z.pos p)) 0); [|exact H0].
      unfold Qeq_bool, inject_Z; cbn [Qnum Qden].
      apply Z.eqb_neq. lia. }
    rewrite Hhalf in Hne |- *. rewrite inject_Z_mult in Hne |- *.
    field. intros H0. apply Hne. rewrite H0. field.
Qed.

End Binary64Exact.

(** ** The handler *)

(** Unfold one request down to the library calls and the tests on the
    request fields. *)
Ltac run_handler :=
  cbv beta iota zeta delta
    [POST_generate_qr_pdf handler generateQRCode
     mbind M_bind mret M_ret try_catch throw modify call
     logger_info logger_debug logger_warn logger_error logger
     res_status res_json res_setHeader
     QRCode_toBuffer_ sharp_toBuffer_ sharp_metadata_ sharp_composite_
     pdf_guard new_PDFDocument update_doc doc_pipe_res doc_do doc_end
     with_log with_calls with_res with_doc initial_state fresh_response
     log calls res doc statusCode headers sent finished snd fst].

Ltac state_simpl :=
  cbn [log calls res doc statusCode headers sent finished deliver
       with_log with_calls with_res with_doc app fmap option_fmap option_map
       PDF.piped PDF.ended PDF.ops PDF.options PDF.is_AddPage
       List.filter List.length Sharp.width Sharp.height
       andb negb orb snd fst].

(** Follow the handler one decision at a time: the next test on a field,
    or the outcome of the next library call. *)
Ltac next_stage :=
  match goal with
  | |- context [QRCode_toBuffer ?P ?w ?t ?o] =>
      destruct (QRCode_toBuffer P w t o) eqn:?
  | |- context [sharp_toBuffer ?P ?w ?p] =>
      destruct (sharp_toBuffer P w p) eqn:?
  | |- context [sharp_metadata ?P ?w ?b] =>
      destruct (sharp_metadata P w b) as [[? ?]|?] eqn:?
  | |- context [sharp_composite ?P ?w ?b ?o] =>
      destruct (sharp_composite P w b o) eqn:?
  | |- context [PDFKit_throws ?P ?w (PDF.New ?o)] =>
      destruct (PDFKit_throws P w (PDF.New o)) eqn:?
  | |- context [PDFKit_throws ?P ?w (PDF.Do (PDF.Image ?a ?b ?c ?d ?e))] =>
      destruct (PDFKit_throws P w (PDF.Do (PDF.Image a b c d e))) eqn:?
  | |- context [PDFKit_throws ?P ?w (PDF.Do (PDF.Font ?a))] =>
      destruct (PDFKit_throws P w (PDF.Do (PDF.Font a))) eqn:?
  | |- context [PDFKit_throws ?P ?w (PDF.Do (PDF.FontSize ?a))] =>
      destruct (PDFKit_throws P w (PDF.Do (PDF.FontSize a))) eqn:?
  | |- context [PDFKit_throws ?P ?w (PDF.Do (PDF.Text ?a ?b ?c ?d ?e))] =>
      destruct (PDFKit_throws P w (PDF.Do (PDF.Text a b c d e))) eqn:?
  | |- context [PDFKit_throws ?P ?w PDF.End_] =>
      destruct (PDFKit_throws P w PDF.End_) eqn:?
  end; state_simpl.

Section HandlerFacts.
Context (P : Platform) (AUTH_SECRET : option string) (dirname : string).
Context (w : World P).

#[local] Abbreviation serve := (POST_generate_qr_pdf P AUTH_SECRET dirname w).

Lemma serve_missing (body : gmap string JsValue) :
  truthy (get body "url") = false \/ truthy (get body "authSecret") = false ->
  res (serve body)
    = {| statusCode := 400; headers := [];
         sent := [JsonText
                    (obj [("error", JString "Missing required parameters");
                          ("details",
                           obj [("url", provided (get body "url"));
                                ("authSecret",
                                 provided (get body "authSecret"))])])];
         finished := true |}
  /\ no_stage_ran (serve body).
Proof.
  intros Hmiss.
  assert (Htest : negb (truthy (get body "url"))
                  || negb (truthy (get body "authSecret")) = true).
  { destruct Hmiss as [-> | ->]; [reflexivity|]. apply orb_true_r. }
  unfold no_stage_ran. run_handler. rewrite Htest. state_simpl.
  repeat split.
Qed.

Lemma serve_unauthorized (body : gmap string JsValue) :
  fields_present body ->
  strict_equal (get body "authSecret") (env_value AUTH_SECRET) = false ->
  res (serve body)
    = {| statusCode := 401; headers := [];
         sent := [JsonText
                    (obj [("error", JString "Invalid authentication secret")])];
         finished := true |}
  /\ no_stage_ran (serve body).
Proof.
  intros [Hu Ha] Hne.
  unfold no_stage_ran. run_handler. rewrite Hu, Ha, Hne. state_simpl.
  repeat split.
Qed.

(** The encoder refuses the URL: the answer is the generic 500 error
    carrying the message of [generateQRCode], and nothing after the
    encoder has run. *)
Lemma serve_encoder_refuses (body : gmap string JsValue) (e : JsError) :
  fields_present body ->
  secret_matches AUTH_SECRET body ->
  QRCode_toBuffer P w (get body "url") qr_options = Throw e ->
  res (serve body)
    = {| statusCode := 500; headers := [];
         sent := [JsonText
                    (obj [("error", JString "Failed to process image");
                          ("details",
                           JString "Failed to generate QR code")])];
         finished := true |}
  /\ calls (serve body) = [CallQRCode (get body "url") qr_options]
  /\ doc (serve body) = None.
Proof.
  intros [Hu Ha] Heq Hqr. unfold secret_matches in Heq.
  run_handler. rewrite Hu, Ha, Heq. state_simpl.
  rewrite Hqr. state_simpl.
  repeat split.
Qed.

(** With valid input the handler gets to the composite call, whatever
    the size of the template and whatever becomes of the call. *)
Lemma serve_composites (body : gmap string JsValue) (qr tmpl : Buffer)
    (W H : Z) :
  fields_present body ->
  secret_matches AUTH_SECRET body ->
  QRCode_toBuffer P w (get body "url") qr_options = Return qr ->
  template_is P dirname w tmpl W H ->
  In (CallSharpComposite tmpl
        [{| Sharp.input := qr; Sharp.top := 481;
            Sharp.left :=
              Binary64.Math_round
                (Binary64.div2 (Binary64.sub (Binary64.of_Z W)
                                             (Binary64.of_Z QR_SIZE))) |}])
     (calls (serve body)).
Proof.
  intros [Hu Ha] Heq Hqr [Hload Hmeta]. unfold secret_matches in Heq.
  run_handler. rewrite Hu, Ha, Heq. state_simpl.
  rewrite Hqr, Hload, Hmeta. state_simpl.
  repeat next_stage; do 3 right; left; reflexivity.
Qed.

(** What a valid request leaves behind. *)
Lemma serve_valid (body : gmap string JsValue) (tmpl : Buffer) (W H : Z) :
  valid_request P AUTH_SECRET dirname w body tmpl W H ->
  exists qr img,
    let url := get body "url" in
    let overlay :=
      {| Sharp.input := qr; Sharp.top := 481;
         Sharp.left :=
           Binary64.Math_round
             (Binary64.div2 (Binary64.sub (Binary64.of_Z W)
                                          (Binary64.of_Z QR_SIZE))) |} in
    let d :=
      {| PDF.options := {| PDF.size := (W, H); PDF.margin := 0 |};
         PDF.ops :=
           [PDF.Image img 0 0 W H;
            PDF.Font "Helvetica-Bold";
            PDF.FontSize
              (Binary64.Math_round
                 (Binary64.mul (Binary64.of_Z W) Binary64.lit_0_03));
            PDF.Text url 0
              (Binary64.Math_round
                 (Binary64.mul (Binary64.of_Z H) Binary64.lit_0_9))
              "center" W];
         PDF.piped := true; PDF.ended := true |} in
    QRCode_toBuffer P w url (qr_options) = Return qr /\
    sharp_composite P w tmpl [overlay] = Return img /\
    calls (serve body)
      = [CallQRCode url qr_options;
         CallSharpRead (TEMPLATE_PATH dirname);
         CallSharpMetadata tmpl;
         CallSharpComposite tmpl [overlay]] /\
    doc (serve body) = Some d /\
    res (serve body)
      = {| statusCode := 200;
           headers := [("Content-Type", "application/pdf");
                       ("Content-Disposition",
                        "attachment; filename=qr-instructions.pdf")];
           sent := [PdfData true (PDFKit_bytes P w d)];
           finished := true |}.
Proof.
  intros (([Hu Ha] & Heq & [qr Hqr] & [Hload Hmeta]) & (d & Hdoc & Hended)).
  unfold secret_matches in Heq.
  exists qr. cbv zeta. revert Hdoc.
  run_handler. rewrite Hu, Ha, Heq. state_simpl.
  rewrite Hqr, Hload, Hmeta. state_simpl.
  repeat next_stage; intros Hdoc; try discriminate Hdoc;
    injection Hdoc as Hd; subst d; try discriminate Hended.
  eexists. repeat split.
Qed.

End HandlerFacts.

Lemma absent_field_is_falsy (body : gmap string JsValue) (k : string) :
  body !! k = None -> truthy (get body k) = false.
Proof. intros E. unfold get. rewrite E. reflexivity. Qed.

Lemma not_fields_present (body : gmap string JsValue) :
  ~ fields_present body ->
  truthy (get body "url") = false \/ truthy (get body "authSecret") = false.
Proof.
  unfold fields_present. intros Hn.
  destruct (truthy (get body "url")); [|now left].
  destruct (truthy (get body "authSecret")); [|now right].
  exfalso. apply Hn. split; reflexivity.
Qed.

Lemma truthy_not_undefined (v : JsValue) :
  truthy v = true -> strict_equal v JUndefined = false.
Proof. destruct v; [discriminate|reflexivity..]. Qed.

(** ** The end-to-end scenarios of the specification *)

Example scenario_valid_request :
  statusCode (res (Demo.serve Demo.good)) = 200 /\
  headers (res (Demo.serve Demo.good))
    = [("Content-Type", "application/pdf");
       ("Content-Disposition", "attachment; filename=qr-instructions.pdf")] /\
  (PDF.options <$> doc (Demo.serve Demo.good))
    = Some {| PDF.size := (1000, 1414); PDF.margin := 0 |} /\
  (PDFKit_pages Demo.platform <$> doc (Demo.serve Demo.good)) = Some 1%nat.
Proof. repeat split; vm_compute; reflexivity. Qed.

Example scenario_wrong_secret :
  res (Demo.serve (Demo.request (JString "https://example.com/x")
                     (JString "wrong")))
    = {| statusCode := 401; headers := [];
         sent := [JsonText
                    (obj [("error", JString "Invalid authentication secret")])];
         finished := true |}.
Proof. vm_compute. reflexivity. Qed.

Example scenario_empty_body :
  res (Demo.serve ∅)
    = {| statusCode := 400; headers := [];
         sent := [JsonText
                    (obj [("error", JString "Missing required parameters");
                          ("details", obj [("url", JString "missing");
                                           ("authSecret", JString "missing")])])];
         finished := true |}.
Proof. vm_compute. reflexivity. Qed.

(** ** Claims *)

(** C1, counterexample: the configured secret is ["s3cret"] and the
    request carries the empty string as [authSecret]; the secrets differ,
    yet the answer is 400, not 401. *)
Lemma empty_secret_is_answered_400 :
  let body := Demo.request (JString "https://example.com/x") (JString "") in
  strict_equal (get body "authSecret") (env_value Demo.secret) = false /\
  statusCode (res (Demo.serve body)) = 400 /\
  statusCode (res (Demo.serve body)) <> 401.
Proof.
  cbv zeta. split; [vm_compute; reflexivity|].
  assert (E : statusCode (res (Demo.serve
                (Demo.request (JString "https://example.com/x") (JString ""))))
              = 400) by (vm_compute; reflexivity).
  rewrite E. split; [reflexivity|discriminate].
Qed.

(** C1, as the code has it: a request whose [authSecret] is not strictly
    equal to the configured secret runs no pipeline stage (QR encoding is
    never invoked).  When both fields pass the presence test the answer
    is 401 with body [{ error: "Invalid authentication secret" }]; when
    one of them is absent or falsy (the empty string included) the
    presence test comes first and the answer is 400. *)
Theorem wrong_secret_never_reaches_pipeline
    (P : Platform) (AUTH_SECRET : option string) (dirname : string)
    (w : World P) (body : gmap string JsValue) :
  strict_equal (get body "authSecret") (env_value AUTH_SECRET) = false ->
  let st := POST_generate_qr_pdf P AUTH_SECRET dirname w body in
  no_stage_ran st /\
  (fields_present body ->
   res st = {| statusCode := 401; headers := [];
               sent := [JsonText
                          (obj [("error",
                                 JString "Invalid authentication secret")])];
               finished := true |}) /\
  (~ fields_present body ->
   statusCode (res st) = 400 /\ json_error_only (res st)).
Proof.
  intros Hne st.
  assert (Hcases : fields_present body \/ ~ fields_present body).
  { unfold fields_present.
    destruct (truthy (get body "url")), (truthy (get body "authSecret"));
      first [left; split; reflexivity | right; intros [? ?]; discriminate]. }
  split; [|split].
  - destruct Hcases as [Hp|Hn].
    + apply (serve_unauthorized P AUTH_SECRET dirname w body Hp Hne).
    + apply (serve_missing P AUTH_SECRET dirname w body
               (not_fields_present body Hn)).
  - intros Hp. apply (serve_unauthorized P AUTH_SECRET dirname w body Hp Hne).
  - intros Hn.
    destruct (serve_missing P AUTH_SECRET dirname w body
                (not_fields_present body Hn)) as [E _].
    subst st. rewrite E. split; [reflexivity|].
    split; [now left|]. split; [reflexivity|]. eexists. reflexivity.
Qed.

Lemma wrong_secret_never_reaches_pipeline_witness :
  let body := Demo.request (JString "https://example.com/x") (JString "S3cret") in
  strict_equal (get body "authSecret") (env_value Demo.secret) = false /\
  no_stage_ran (Demo.serve body) /\
  statusCode (res (Demo.serve body)) = 401.
Proof.
  cbv zeta.
  assert (Hne : strict_equal
                  (get (Demo.request (JString "https://example.com/x")
                          (JString "S3cret")) "authSecret")
                  (env_value Demo.secret) = false) by (vm_compute; reflexivity).
  split; [exact Hne|].
  destruct (wrong_secret_never_reaches_pipeline Demo.platform Demo.secret
              Demo.dir 1700000000000 _ Hne) as (Hnone & H401 & _).
  split; [exact Hnone|].
  unfold Demo.serve. rewrite H401; [reflexivity|].
  split; vm_compute; reflexivity.
Defined.

(** C2, counterexample: the body [{ authSecret: "" }] supplies
    [authSecret] (as the empty string) and omits [url]; the 400 answer
    reports [authSecret] as "missing" although it was supplied. *)
Lemma supplied_empty_field_reported_missing :
  let body : gmap string JsValue := <["authSecret" := JString ""]> ∅ in
  body !! "url" = None /\
  body !! "authSecret" = Some (JString "") /\
  res (Demo.serve body)
    = {| statusCode := 400; headers := [];
         sent := [JsonText
                    (obj [("error", JString "Missing required parameters");
                          ("details", obj [("url", JString "missing");
                                           ("authSecret", JString "missing")])])];
         finished := true |}.
Proof. cbv zeta. repeat split; vm_compute; reflexivity. Qed.

(** C2, as the code has it: when [url] or [authSecret] is absent or falsy
    (empty string, [null], [false], 0), the answer is 400 with body
    [{ error: "Missing required parameters", details: { url, authSecret } }]
    where each details field is "provided" exactly when the value of that
    field is truthy and "missing" otherwise; an absent field is always
    "missing", a truthy field never. *)
Theorem missing_parameters_reported
    (P : Platform) (AUTH_SECRET : option string) (dirname : string)
    (w : World P) (body : gmap string JsValue) :
  truthy (get body "url") = false \/ truthy (get body "authSecret") = false ->
  let report (k : string) :=
    JString (if truthy (get body k) then "provided" else "missing") in
  res (POST_generate_qr_pdf P AUTH_SECRET dirname w body)
    = {| statusCode := 400; headers := [];
         sent := [JsonText
                    (obj [("error", JString "Missing required parameters");
                          ("details", obj [("url", report "url");
                                           ("authSecret", report "authSecret")])])];
         finished := true |} /\
  (forall k, body !! k = None -> report k = JString "missing") /\
  (forall k, truthy (get body k) = true -> report k = JString "provided").
Proof.
  intros Hmiss report.
  split; [apply (serve_missing P AUTH_SECRET dirname w body Hmiss)|].
  subst report. split; intros k Hk; cbv beta.
  - rewrite (absent_field_is_falsy body k Hk). reflexivity.
  - rewrite Hk. reflexivity.
Qed.

Lemma missing_parameters_reported_witness :
  let body : gmap string JsValue := <["authSecret" := JString "s3cret"]> ∅ in
  (truthy (get body "url") = false \/ truthy (get body "authSecret") = false) /\
  res (Demo.serve body)
    = {| statusCode := 400; headers := [];
         sent := [JsonText
                    (obj [("error", JString "Missing required parameters");
                          ("details", obj [("url", JString "missing");
                                           ("authSecret", JString "provided")])])];
         finished := true |}.
Proof.
  cbv zeta.
  assert (Hm : truthy (get (<["authSecret" := JString "s3cret"]> ∅) "url") = false
               \/ truthy (get (<["authSecret" := JString "s3cret"]> ∅)
                            "authSecret") = false)
    by (left; vm_compute; reflexivity).
  split; [exact Hm|].
  destruct (missing_parameters_reported Demo.platform Demo.secret Demo.dir
              1700000000000 _ Hm) as (E & _ & _).
  exact E.
Defined.

(** C3, counterexample: a valid request against a template 1000 pixels
    wide.  The overlay, a raster 384 pixels wide, starts at column
    308 = round((1000 - 384)/2), so its centre is at column 500 (twice
    the centre: 1000), which is not round((W - S)/2) = 308. *)
Lemma overlay_centre_is_not_the_offset :
  let ov := {| Sharp.input := Demo.raster 384 384
                 (list_byte_of_string "https://example.com/x");
               Sharp.top := 481; Sharp.left := 308 |} in
  In (CallSharpComposite Demo.template [ov]) (calls (Demo.serve Demo.good)) /\
  overlay_center_x2 Demo.platform ov = Some 1000 /\
  overlay_center_x2 Demo.platform ov
    <> Some (2 * round_half_up ((inject_Z 1000 - inject_Z QR_SIZE) / 2)).
Proof.
  cbv zeta. split; [|split].
  - vm_compute. do 3 right. left. reflexivity.
  - vm_compute. reflexivity.
  - rewrite round_half_up_centre. vm_compute. discriminate.
Qed.

(** C3, as the code has it: for every request with present fields, the
    matching secret and an encodable URL, once the template is read and
    measured, the handler composites the encoder's raster at the left
    edge (x offset) round((W - S)/2).  The centre of the overlay lies
    half the width of that raster further right: at W/2, up to the half
    pixel of the rounding, when the raster is S wide, and short of it by
    half of what the raster lacks to S otherwise. *)
Theorem valid_request_overlay_centred
    (P : Platform) (AUTH_SECRET : option string) (dirname : string)
    (w : World P) (body : gmap string JsValue) (tmpl : Buffer) (W H : Z) :
  valid_input P AUTH_SECRET dirname w body tmpl W H ->
  0 <= W < 2 ^ 52 ->
  exists qr ov,
    QRCode_toBuffer P w (get body "url") qr_options = Return qr /\
    Sharp.input ov = qr /\
    In (CallSharpComposite tmpl [ov])
       (calls (POST_generate_qr_pdf P AUTH_SECRET dirname w body)) /\
    Sharp.left ov = round_half_up ((inject_Z W - inject_Z QR_SIZE) / 2) /\
    forall columns rows,
      image_size P qr = Some (columns, rows) ->
      exists centre_x2,
        overlay_center_x2 P ov = Some centre_x2 /\
        W - (QR_SIZE - columns) <= centre_x2 <= W - (QR_SIZE - columns) + 1.
Proof.
  intros (Hp & Hs & [qr Hqr] & Htmpl) HW.
  pose proof (serve_composites P AUTH_SECRET dirname w body qr tmpl W H
                Hp Hs Hqr Htmpl) as Hin.
  assert (Hleft : Binary64.Math_round
                    (Binary64.div2 (Binary64.sub (Binary64.of_Z W)
                                                 (Binary64.of_Z QR_SIZE)))
                  = (W - QR_SIZE + 1) / 2).
  { apply Binary64Facts.Math_round_half_difference; unfold QR_SIZE; lia. }
  rewrite Hleft in Hin.
  exists qr. eexists. split; [exact Hqr|].
  split; [|split; [exact Hin|]]; [reflexivity|].
  cbn [Sharp.left]. split; [symmetry; apply round_half_up_centre|].
  intros columns rows Hsize. eexists.
  unfold overlay_center_x2. cbn [Sharp.input Sharp.left]. rewrite Hsize.
  split; [reflexivity|].
  unfold QR_SIZE.
  pose proof (Z.div_mod (W - 384 + 1) 2 ltac:(lia)).
  pose proof (Z.mod_pos_bound (W - 384 + 1) 2 ltac:(lia)). lia.
Qed.

Lemma demo_good_is_valid (t : Z) :
  valid_request Demo.platform Demo.secret Demo.dir t Demo.good
    Demo.template 1000 1414.
Proof.
  split.
  - repeat split; try (vm_compute; reflexivity).
    eexists. vm_compute. reflexivity.
  - unfold rendering_succeeds.
    destruct (doc (POST_generate_qr_pdf Demo.platform Demo.secret Demo.dir t
                     Demo.good)) as [d|] eqn:Hdoc;
      [|vm_compute in Hdoc; discriminate Hdoc].
    exists d. split; [reflexivity|].
    vm_compute in Hdoc. injection Hdoc as <-. reflexivity.
Qed.

Lemma valid_request_overlay_centred_witness :
  valid_input Demo.platform Demo.secret Demo.dir 1700000000000 Demo.good
    Demo.template 1000 1414 /\
  0 <= 1000 < 2 ^ 52 /\
  exists qr ov,
    QRCode_toBuffer Demo.platform 1700000000000 (get Demo.good "url") qr_options
      = Return qr /\
    Sharp.input ov = qr /\
    In (CallSharpComposite Demo.template [ov]) (calls (Demo.serve Demo.good)) /\
    Sharp.left ov = round_half_up ((inject_Z 1000 - inject_Z QR_SIZE) / 2) /\
    forall columns rows,
      image_size Demo.platform qr = Some (columns, rows) ->
      exists centre_x2,
        overlay_center_x2 Demo.platform ov = Some centre_x2 /\
        1000 - (QR_SIZE - columns) <= centre_x2
          <= 1000 - (QR_SIZE - columns) + 1.
Proof.
  split; [apply (proj1 (demo_good_is_valid 1700000000000))|]. split; [lia|].
  apply (valid_request_overlay_centred Demo.platform Demo.secret Demo.dir
           1700000000000 Demo.good Demo.template 1000 1414).
  - apply (proj1 (demo_good_is_valid 1700000000000)).
  - lia.
Defined.

(** C6: whenever the handler composites an image, it stamps exactly one
    overlay, at the horizontally centred offset round((W - S)/2) and at
    481 pixels from the top, whatever the height H of the template. *)
Theorem overlay_placement
    (P : Platform) (AUTH_SECRET : option string) (dirname : string)
    (w : World P) (body : gmap string JsValue)
    (base : Buffer) (ovs : list Sharp.Overlay) :
  In (CallSharpComposite base ovs)
     (calls (POST_generate_qr_pdf P AUTH_SECRET dirname w body)) ->
  exists qr W H offset_x,
    sharp_metadata P w base
      = Return {| Sharp.width := W; Sharp.height := H |} /\
    ovs = [{| Sharp.input := qr; Sharp.top := 481; Sharp.left := offset_x |}] /\
    (0 <= W < 2 ^ 52 ->
     offset_x = round_half_up ((inject_Z W - inject_Z QR_SIZE) / 2)).
Proof.
  remember (sharp_metadata P w base) as size_of_base eqn:Hsize.
  run_handler.
  destruct (truthy (get body "url")), (truthy (get body "authSecret"));
    cbn [negb orb]; state_simpl; try contradiction.
  destruct (strict_equal (get body "authSecret") (env_value AUTH_SECRET));
    state_simpl; try contradiction.
  repeat next_stage;
    intros Hin;
    repeat (destruct Hin as [Hin|Hin]; [try discriminate Hin|]);
    try contradiction;
    injection Hin as Hbase Hovs; subst base ovs size_of_base;
    do 4 eexists;
    (split; [eassumption|]);
    (split; [reflexivity|]);
    intros HW; rewrite round_half_up_centre;
    apply Binary64Facts.Math_round_half_difference; unfold QR_SIZE; lia.
Qed.

Lemma overlay_placement_witness :
  let ov := {| Sharp.input := Demo.raster 384 384
                 (list_byte_of_string "https://example.com/x");
               Sharp.top := 481; Sharp.left := 308 |} in
  In (CallSharpComposite Demo.template [ov]) (calls (Demo.serve Demo.good)) /\
  exists qr W H offset_x,
    sharp_metadata Demo.platform 1700000000000 Demo.template
      = Return {| Sharp.width := W; Sharp.height := H |} /\
    [ov] = [{| Sharp.input := qr; Sharp.top := 481; Sharp.left := offset_x |}] /\
    (0 <= W < 2 ^ 52 ->
     offset_x = round_half_up ((inject_Z W - inject_Z QR_SIZE) / 2)).
Proof.
  cbv zeta.
  assert (Hin : In (CallSharpComposite Demo.template
                      [{| Sharp.input := Demo.raster 384 384
                            (list_byte_of_string "https://example.com/x");
                          Sharp.top := 481; Sharp.left := 308 |}])
                   (calls (Demo.serve Demo.good))).
  { vm_compute. do 3 right. left. reflexivity. }
  split; [exact Hin|].
  exact (overlay_placement Demo.platform Demo.secret Demo.dir 1700000000000
           Demo.good _ _ Hin).
Defined.

(** C7, counterexample: a valid request whose URL has 216 characters.
    At font size 30 in a box 1000 wide the text takes four lines, of
    which three fit between y = 1273 and the bottom edge at 1414; the
    document comes out on two pages. *)
Lemma long_url_takes_a_second_page :
  let body := Demo.request Demo.catalogue_url (JString "s3cret") in
  valid_request Demo.platform Demo.secret Demo.dir 1700000000000 body
    Demo.template 1000 1414 /\
  exists d,
    doc (Demo.serve body) = Some d /\
    PDF.ended d = true /\
    PDFKit_pages Demo.platform d = 2%nat.
Proof.
  cbv zeta.
  set (body := Demo.request Demo.catalogue_url (JString "s3cret")).
  destruct (doc (Demo.serve body)) as [d|] eqn:Hdoc;
    [|vm_compute in Hdoc; discriminate Hdoc].
  assert (Hended : PDF.ended d = true).
  { vm_compute in Hdoc. injection Hdoc as <-. reflexivity. }
  assert (Hpages : PDFKit_pages Demo.platform d = 2%nat).
  { vm_compute in Hdoc. injection Hdoc as <-. vm_compute. reflexivity. }
  split.
  - split.
    + repeat split; try (vm_compute; reflexivity).
      eexists. vm_compute. reflexivity.
    + exists d. split; [exact Hdoc|exact Hended].
  - exists d. repeat split; assumption.
Qed.

(** C7, as the code has it: for every valid request the document is
    constructed with page size exactly (W, H) and margin 0, the handler
    asks for no further page, and the first thing drawn is the image
    composited from the template and the encoder's raster, at origin
    (0,0) and stretched to W by H, so that it fills the first page; the
    document is ended and its bytes are the response body.  Whether the
    text after it stays on that page is up to [pdfkit]. *)
Theorem valid_request_page_setup
    (P : Platform) (AUTH_SECRET : option string) (dirname : string)
    (w : World P) (body : gmap string JsValue) (tmpl : Buffer) (W H : Z) :
  valid_request P AUTH_SECRET dirname w body tmpl W H ->
  exists d qr ov img rest,
    doc (POST_generate_qr_pdf P AUTH_SECRET dirname w body) = Some d /\
    PDF.options d = {| PDF.size := (W, H); PDF.margin := 0 |} /\
    Forall (fun o => PDF.is_AddPage o = false) (PDF.ops d) /\
    QRCode_toBuffer P w (get body "url") qr_options = Return qr /\
    Sharp.input ov = qr /\
    In (CallSharpComposite tmpl [ov])
       (calls (POST_generate_qr_pdf P AUTH_SECRET dirname w body)) /\
    sharp_composite P w tmpl [ov] = Return img /\
    PDF.ops d = PDF.Image img 0 0 W H :: rest /\
    PDF.ended d = true /\
    sent (res (POST_generate_qr_pdf P AUTH_SECRET dirname w body))
      = [PdfData true (PDFKit_bytes P w d)].
Proof.
  intros Hvalid.
  destruct (serve_valid P AUTH_SECRET dirname w body tmpl W H Hvalid)
    as (qr & img & Hqr & Himg & Hcalls & Hdoc & Hres).
  cbv zeta in *.
  eexists. exists qr. eexists. exists img. eexists.
  split; [exact Hdoc|]. rewrite Hres, Hcalls.
  split; [reflexivity|].
  split; [repeat constructor|].
  split; [exact Hqr|].
  split; [|split; [do 3 right; left; reflexivity|]]; [reflexivity|].
  split; [exact Himg|].
  repeat split.
Qed.

Lemma valid_request_page_setup_witness :
  valid_request Demo.platform Demo.secret Demo.dir 1700000000000 Demo.good
    Demo.template 1000 1414 /\
  exists d qr ov img rest,
    doc (Demo.serve Demo.good) = Some d /\
    PDF.options d = {| PDF.size := (1000, 1414); PDF.margin := 0 |} /\
    Forall (fun o => PDF.is_AddPage o = false) (PDF.ops d) /\
    QRCode_toBuffer Demo.platform 1700000000000 (get Demo.good "url")
      qr_options = Return qr /\
    Sharp.input ov = qr /\
    In (CallSharpComposite Demo.template [ov]) (calls (Demo.serve Demo.good)) /\
    sharp_composite Demo.platform 1700000000000 Demo.template [ov]
      = Return img /\
    PDF.ops d = PDF.Image img 0 0 1000 1414 :: rest /\
    PDF.ended d = true /\
    sent (res (Demo.serve Demo.good))
      = [PdfData true (PDFKit_bytes Demo.platform 1700000000000 d)].
Proof.
  split; [apply demo_good_is_valid|].
  apply (valid_request_page_setup Demo.platform Demo.secret Demo.dir
           1700000000000 Demo.good Demo.template 1000 1414).
  apply demo_good_is_valid.
Defined.




(** C10: with [AUTH_SECRET] unset in the environment, every request that
    passes the presence test is answered 401, whatever [authSecret] it
    carries, and no pipeline stage runs. *)
Theorem unset_secret_rejects_everything
    (P : Platform) (dirname : string) (w : World P)
    (body : gmap string JsValue) :
  fields_present body ->
  res (POST_generate_qr_pdf P None dirname w body)
    = {| statusCode := 401; headers := [];
         sent := [JsonText
                    (obj [("error", JString "Invalid authentication secret")])];
         finished := true |} /\
  no_stage_ran (POST_generate_qr_pdf P None dirname w body).
Proof.
  intros Hp. apply serve_unauthorized; [exact Hp|].
  apply truthy_not_undefined. apply Hp.
Qed.

Lemma unset_secret_rejects_everything_witness :
  fields_present Demo.good /\
  res (POST_generate_qr_pdf Demo.platform None Demo.dir 1700000000000 Demo.good)
    = {| statusCode := 401; headers := [];
         sent := [JsonText
                    (obj [("error", JString "Invalid authentication secret")])];
         finished := true |} /\
  no_stage_ran
    (POST_generate_qr_pdf Demo.platform None Demo.dir 1700000000000 Demo.good).
Proof.
  assert (Hp : fields_present Demo.good) by (split; vm_compute; reflexivity).
  split; [exact Hp|].
  apply (unset_secret_rejects_everything Demo.platform Demo.dir 1700000000000
           Demo.good Hp).
Defined.


(** The doubles behind that side: 384/47 is rounded down, and 47 times
    the rounded scale falls short of 384. *)
Example scale_of_version_7 :
  Binary64.div (Binary64.of_Z 384) (Binary64.of_Z 47)
    = Some (Binary64.Float 4599420896037953 (-49)) /\
  Binary64.mul (Binary64.of_Z 47) (Binary64.Float 4599420896037953 (-49))
    = Binary64.Float 6755399441055743 (-44) /\
  Binary64.Math_floor (Binary64.Float 6755399441055743 (-44)) = 383.
Proof. repeat split; vm_compute; reflexivity. Qed.

(** Over the forty versions of a symbol the renderer's side is S for all
    but versions 7 and 32, where it is S - 1. *)
Example rendered_side_by_version :
  List.map (fun v => Demo.rendered_side (17 + 4 * v) qr_options)
           [1; 2; 3; 4; 5; 6; 7; 8; 9; 10; 11; 12; 13; 14; 15; 16; 17; 18; 19;
            20; 21; 22; 23; 24; 25; 26; 27; 28; 29; 30; 31; 32; 33; 34; 35; 36;
            37; 38; 39; 40]
  = List.map (fun v => if (v =? 7) || (v =? 32) then 383 else 384)
             [1; 2; 3; 4; 5; 6; 7; 8; 9; 10; 11; 12; 13; 14; 15; 16; 17; 18;
              19; 20; 21; 22; 23; 24; 25; 26; 27; 28; 29; 30; 31; 32; 33; 34;
              35; 36; 37; 38; 39; 40].
Proof. vm_compute. reflexivity. Qed.


(** A URL of 1300 characters is beyond what the demonstration encoder
    accepts: the request ends in a 500 answer and nothing after the
    encoder was called. *)
Example oversized_url_fails_cleanly :
  let url := JString (String.concat "" (List.repeat "0123456789" 130)) in
  let st := Demo.serve (Demo.request url (JString "s3cret")) in
  statusCode (res st) = 500 /\
  List.length (calls st) = 1%nat /\
  doc st = None.
Proof. cbv zeta. repeat split; vm_compute; reflexivity. Qed.






(** C5: whatever the request and whichever stage fails, the response in
    the end carries either the whole PDF (status 200, the bytes of the
    ended document) or one JSON error object (status 400, 401 or 500) and
    nothing else; no response carries part of a PDF. *)
Theorem no_partial_response
    (P : Platform) (AUTH_SECRET : option string) (dirname : string)
    (w : World P) (body : gmap string JsValue) :
  complete_pdf (res (POST_generate_qr_pdf P AUTH_SECRET dirname w body)) \/
  json_error_only (res (POST_generate_qr_pdf P AUTH_SECRET dirname w body)).
Proof.
  unfold complete_pdf, json_error_only.
  run_handler.
  destruct (truthy (get body "url")), (truthy (get body "authSecret"));
    cbn [negb orb]; state_simpl;
    try (right; split; [auto|split; [reflexivity|eexists; reflexivity]]; fail).
  destruct (strict_equal (get body "authSecret") (env_value AUTH_SECRET));
    state_simpl;
    try (right; split; [auto|split; [reflexivity|eexists; reflexivity]]; fail).
  repeat next_stage;
    first [ right; split; [auto|split; [reflexivity|eexists; reflexivity]]
          | left; split; [reflexivity|split; [reflexivity|eexists; reflexivity]] ].
Qed.

(** A failure after [doc.pipe(res)]: the PDF library cannot lay out the
    text.  The response is the JSON error alone; the headers set for the
    PDF are still on it. *)
Example late_failure_sends_json_only :
  res (POST_generate_qr_pdf Demo.platform_no_text Demo.secret Demo.dir
         1700000000000 Demo.good)
    = {| statusCode := 500;
         headers := [("Content-Type", "application/pdf");
                     ("Content-Disposition",
                      "attachment; filename=qr-instructions.pdf")];
         sent := [JsonText
                    (obj [("error", JString "Failed to process image");
                          ("details", JString "cannot lay out text")])];
         finished := true |}.
Proof. vm_compute. reflexivity. Qed.

(** ** Further properties of the application *)

Lemma strict_equal_env (v : JsValue) (secret : option string) :
  truthy v = true ->
  strict_equal v (env_value secret) = true ->
  exists s, s <> "" /\ secret = Some s /\ v = JString s.
Proof.
  intros Ht He.
  destruct secret as [s|]; cbn [env_value from_option] in He.
  - destruct v; try discriminate He. cbn [strict_equal] in He.
    apply String.eqb_eq in He. subst s0. exists s.
    split; [|split; reflexivity].
    intros ->. discriminate Ht.
  - rewrite (truthy_not_undefined v Ht) in He. discriminate He.
Qed.

Lemma fields_present_dec (body : gmap string JsValue) :
  fields_present body \/ ~ fields_present body.
Proof.
  unfold fields_present.
  destruct (truthy (get body "url")), (truthy (get body "authSecret"));
    first [left; split; reflexivity | right; intros [? ?]; discriminate].
Qed.

(** X1: a library is called only for a request whose [url] is truthy and
    whose [authSecret] is a non-empty string identical to the configured
    secret. *)
Theorem pipeline_requires_the_secret
    (P : Platform) (AUTH_SECRET : option string) (dirname : string)
    (w : World P) (body : gmap string JsValue) :
  calls (POST_generate_qr_pdf P AUTH_SECRET dirname w body) <> [] ->
  truthy (get body "url") = true /\
  exists s, s <> "" /\ AUTH_SECRET = Some s /\
            get body "authSecret" = JString s.
Proof.
  intros Hran.
  destruct (fields_present_dec body) as [Hp|Hn].
  - destruct (strict_equal (get body "authSecret") (env_value AUTH_SECRET))
      eqn:Heq.
    + split; [apply Hp|].
      apply strict_equal_env; [apply Hp|exact Heq].
    + destruct (serve_unauthorized P AUTH_SECRET dirname w body Hp Heq)
        as (_ & Hnone & _).
      contradiction.
  - destruct (serve_missing P AUTH_SECRET dirname w body
                (not_fields_present body Hn)) as (_ & Hnone & _).
    contradiction.
Qed.

Lemma pipeline_requires_the_secret_witness :
  calls (Demo.serve Demo.good) <> [] /\
  truthy (get Demo.good "url") = true /\
  exists s, s <> "" /\ Demo.secret = Some s /\
            get Demo.good "authSecret" = JString s.
Proof.
  assert (Hran : calls (Demo.serve Demo.good) <> [])
    by (vm_compute; discriminate).
  split; [exact Hran|].
  exact (pipeline_requires_the_secret Demo.platform Demo.secret Demo.dir
           1700000000000 Demo.good Hran).
Defined.

(** X2: the [authConfigured] flag logged at start-up is [false] exactly
    when no request whatsoever can make the service call a library: with
    the secret unset or empty every request is turned away, and with any
    other secret the request carrying it gets through to the encoder. *)
Theorem authConfigured_false_iff_service_closed
    (P : Platform) (w0 w : World P) (PORT AUTH_SECRET : option string)
    (dirname : string) :
  (exists e,
     In e (log (snd (startup P w0 PORT AUTH_SECRET dirname initial_state))) /\
     In ("authConfigured", JBool false) (Log.meta e))
  <->
  (forall body, no_stage_ran (POST_generate_qr_pdf P AUTH_SECRET dirname w body)).
Proof.
  assert (Hflag :
    (exists e,
       In e (log (snd (startup P w0 PORT AUTH_SECRET dirname initial_state))) /\
       In ("authConfigured", JBool false) (Log.meta e))
    <-> authConfigured AUTH_SECRET = false).
  { unfold startup. run_handler. cbn [app].
    split.
    - intros (e & [<-|[]] & Hin). cbn [Log.meta] in Hin.
      destruct Hin as [Hin|[Hin|[Hin|[Hin|[]]]]]; try discriminate Hin.
      now injection Hin.
    - intros ->. eexists. split; [left; reflexivity|].
      cbn [Log.meta]. do 3 right. left. reflexivity. }
  rewrite Hflag. unfold authConfigured. split.
  - intros Hoff body.
    destruct (fields_present_dec body) as [Hp|Hn].
    + apply (serve_unauthorized P AUTH_SECRET dirname w body Hp).
      destruct (strict_equal (get body "authSecret") (env_value AUTH_SECRET))
        eqn:Heq; [|reflexivity].
      destruct (strict_equal_env _ _ (proj2 Hp) Heq) as (s & Hs & -> & _).
      cbn in Hoff. destruct s; [contradiction|discriminate].
    + apply (serve_missing P AUTH_SECRET dirname w body
               (not_fields_present body Hn)).
  - intros Hclosed.
    destruct (truthy (env_value AUTH_SECRET)) eqn:Hon; [|reflexivity].
    destruct AUTH_SECRET as [s|]; [|discriminate Hon].
    exfalso.
    destruct (Hclosed (<["url" := JString "u"]>
                         (<["authSecret" := JString s]> ∅))) as [Hnone _].
    revert Hnone. run_handler.
    assert (Hu : get (<["url" := JString "u"]>
                        (<["authSecret" := JString s]> ∅)) "url"
                 = JString "u").
    { unfold get. rewrite lookup_insert_eq. reflexivity. }
    assert (Ha : get (<["url" := JString "u"]>
                        (<["authSecret" := JString s]> ∅)) "authSecret"
                 = JString s).
    { unfold get. rewrite lookup_insert_ne by discriminate.
      rewrite lookup_insert_eq. reflexivity. }
    rewrite Hu, Ha. cbn [env_value from_option] in *.
    cbn [truthy strict_equal] in *. rewrite Hon, String.eqb_refl.
    cbn [String.eqb negb orb]. state_simpl.
    repeat next_stage; discriminate.
Qed.

(** X3: the handler never lets an exception escape: whatever the request
    and whatever the libraries do, it returns normally, so the error
    middleware registered after it is never reached from this route. *)
Theorem handler_never_throws
    (P : Platform) (AUTH_SECRET : option string) (dirname : string)
    (w : World P) (body : gmap string JsValue) (st : ServerState) :
  fst (handler P AUTH_SECRET dirname w body st) = Return tt.
Proof.
  run_handler.
  destruct (truthy (get body "url")), (truthy (get body "authSecret"));
    cbn [negb orb]; state_simpl; try reflexivity.
  destruct (strict_equal (get body "authSecret") (env_value AUTH_SECRET));
    state_simpl; try reflexivity.
  repeat next_stage; reflexivity.
Qed.

Ltac close_stages :=
  unfold stages_reached;
  first
    [ left; reflexivity
    | right; left; eexists; split; [eassumption|reflexivity]
    | right; right; eexists; split; [eassumption|];
      first
        [ left; eexists; split; [eassumption|reflexivity]
        | right; eexists; split; [eassumption|];
          first
            [ left; eexists; split; [eassumption|reflexivity]
            | right; do 2 eexists; split; [eassumption|];
              (split; [|reflexivity]); reflexivity ] ] ].

(** X4: the four library stages run in the order encoder, template
    read, metadata, composite, each at most once and each only after
    the one before it returned; a stage that raises an error is the last
    call made.  Metadata are asked of, and the overlay is composited
    onto, the very buffer read from [TEMPLATE_PATH], and the overlay's
    input is the buffer the encoder returned. *)
Theorem stages_short_circuit
    (P : Platform) (AUTH_SECRET : option string) (dirname : string)
    (w : World P) (body : gmap string JsValue) :
  stages_reached P dirname w (get body "url")
    (calls (POST_generate_qr_pdf P AUTH_SECRET dirname w body)).
Proof.
  run_handler.
  destruct (truthy (get body "url")), (truthy (get body "authSecret"));
    cbn [negb orb]; state_simpl; try close_stages.
  destruct (strict_equal (get body "authSecret") (env_value AUTH_SECRET));
    state_simpl; try close_stages.
  repeat next_stage; close_stages.
Qed.

(** The first two tests of the handler, keeping what they found. *)
Ltac enter_handler body secret :=
  run_handler;
  destruct (truthy (get body "url")) eqn:Hurl;
  destruct (truthy (get body "authSecret")) eqn:Hsecret;
  cbn [negb orb]; state_simpl;
  [ destruct (strict_equal (get body "authSecret") (env_value secret))
      eqn:Hmatch; state_simpl
  | | | ].

Ltac find_in_list := repeat first [left; reflexivity | right].

(** X5: a 500 answer carries exactly two fields, the fixed text
    "Failed to process image" and a message: the fixed message of
    [generateQRCode] when the encoder raised an error, and otherwise the
    message of the error raised by the image or PDF library.  Neither the
    name nor the stack of an error is ever part of it. *)
Theorem error_response_carries_message_only
    (P : Platform) (AUTH_SECRET : option string) (dirname : string)
    (w : World P) (body : gmap string JsValue) :
  statusCode (res (POST_generate_qr_pdf P AUTH_SECRET dirname w body)) = 500 ->
  exists m,
    sent (res (POST_generate_qr_pdf P AUTH_SECRET dirname w body))
      = [JsonText (obj [("error", JString "Failed to process image");
                        ("details", JString m)])] /\
    ((m = "Failed to generate QR code" /\
      exists e, encoder_throws P w (get body "url") e) \/
     (exists e, m = message e /\ thrown_by_library P w e)).
Proof.
  enter_handler body AUTH_SECRET; try discriminate.
  repeat next_stage; intros Hstatus; try discriminate Hstatus;
    (eexists; split; [reflexivity|]);
    first
      [ left; split; [reflexivity|]; eexists; eassumption
      | right; eexists; split; [reflexivity|]; unfold thrown_by_library;
        first [ left; eexists; eassumption
              | right; left; eexists; eassumption
              | right; right; left; do 2 eexists; eassumption
              | right; right; right; eexists; eassumption ] ].
Qed.

Lemma error_response_carries_message_only_witness :
  statusCode (res (POST_generate_qr_pdf Demo.platform_no_text Demo.secret
                     Demo.dir 1700000000000 Demo.good)) = 500 /\
  exists m,
    sent (res (POST_generate_qr_pdf Demo.platform_no_text Demo.secret
                 Demo.dir 1700000000000 Demo.good))
      = [JsonText (obj [("error", JString "Failed to process image");
                        ("details", JString m)])] /\
    ((m = "Failed to generate QR code" /\
      exists e, encoder_throws Demo.platform_no_text 1700000000000
                  (get Demo.good "url") e) \/
     (exists e, m = message e /\
                thrown_by_library Demo.platform_no_text 1700000000000 e)).
Proof.
  assert (H500 : statusCode (res (POST_generate_qr_pdf Demo.platform_no_text
                   Demo.secret Demo.dir 1700000000000 Demo.good)) = 500)
    by (vm_compute; reflexivity).
  split; [exact H500|].
  exact (error_response_carries_message_only Demo.platform_no_text Demo.secret
           Demo.dir 1700000000000 Demo.good H500).
Defined.

(** X6: status 200 is kept only for a request that went all the way:
    both fields present, the secret matching, the URL encoded, the
    template read and measured, the overlay composited, and the document
    ended; the response then carries the whole PDF. *)
Theorem success_requires_every_stage
    (P : Platform) (AUTH_SECRET : option string) (dirname : string)
    (w : World P) (body : gmap string JsValue) :
  statusCode (res (POST_generate_qr_pdf P AUTH_SECRET dirname w body)) = 200 ->
  fields_present body /\
  secret_matches AUTH_SECRET body /\
  encodable P w (get body "url") /\
  (exists tmpl W H,
     template_is P dirname w tmpl W H /\ composited_onto P w tmpl) /\
  complete_pdf (res (POST_generate_qr_pdf P AUTH_SECRET dirname w body)) /\
  exists d, doc (POST_generate_qr_pdf P AUTH_SECRET dirname w body) = Some d /\
            PDF.ended d = true.
Proof.
  enter_handler body AUTH_SECRET; try discriminate.
  repeat next_stage; intros Hstatus; try discriminate Hstatus.
  split; [split; assumption|].
  split; [exact Hmatch|].
  split; [eexists; eassumption|].
  split.
  - do 3 eexists. split; [split; eassumption|].
    do 2 eexists. eassumption.
  - split.
    + split; [reflexivity|]. split; [reflexivity|]. eexists. reflexivity.
    + eexists. split; reflexivity.
Qed.

Lemma success_requires_every_stage_witness :
  statusCode (res (Demo.serve Demo.good)) = 200 /\
  fields_present Demo.good /\
  secret_matches Demo.secret Demo.good /\
  encodable Demo.platform 1700000000000 (get Demo.good "url").
Proof.
  assert (H200 : statusCode (res (Demo.serve Demo.good)) = 200)
    by (vm_compute; reflexivity).
  split; [exact H200|].
  destruct (success_requires_every_stage Demo.platform Demo.secret Demo.dir
              1700000000000 Demo.good H200) as (Hp & Hs & He & _).
  split; [exact Hp|]. split; [exact Hs|exact He].
Defined.

(** X7: the two PDF headers are on the response exactly when a
    [PDFDocument] was constructed.  They stay on it when a later PDF call
    fails: the answer is then status 500 with a JSON body, labelled
    [application/pdf] and offered as the attachment
    [qr-instructions.pdf].  Without a document there are no headers and
    the status is never 200. *)
Theorem pdf_headers_follow_the_document
    (P : Platform) (AUTH_SECRET : option string) (dirname : string)
    (w : World P) (body : gmap string JsValue) :
  let st := POST_generate_qr_pdf P AUTH_SECRET dirname w body in
  (doc st = None /\ headers (res st) = [] /\ statusCode (res st) <> 200) \/
  (exists d,
     doc st = Some d /\ PDF.piped d = true /\
     headers (res st)
       = [("Content-Type", "application/pdf");
          ("Content-Disposition", "attachment; filename=qr-instructions.pdf")] /\
     ((PDF.ended d = true /\ statusCode (res st) = 200) \/
      (PDF.ended d = false /\ statusCode (res st) = 500 /\
       exists v, sent (res st) = [JsonText v]))).
Proof.
  cbv zeta.
  enter_handler body AUTH_SECRET;
    try (left; repeat split; discriminate).
  repeat next_stage;
    first
      [ left; repeat split; discriminate
      | right; eexists; split; [reflexivity|];
        split; [reflexivity|]; split; [reflexivity|];
        first [ left; split; reflexivity
              | right; split; [reflexivity|]; split; [reflexivity|];
                eexists; reflexivity ] ].
Qed.



(** X9: for a valid request (one the handler answers with the ended
    document) the text is placed inside the page: its y
    coordinate lies between 0 and H and is strictly above the bottom edge
    as soon as H is at least 6, and the font size lies between 0 and W.
    The font size is 0 exactly when the template is narrower than 17
    pixels, so on such a template the URL is drawn at size 0. *)
Theorem text_geometry_within_page
    (P : Platform) (AUTH_SECRET : option string) (dirname : string)
    (w : World P) (body : gmap string JsValue) (tmpl : Buffer) (W H : Z) :
  valid_request P AUTH_SECRET dirname w body tmpl W H ->
  0 <= W <= 2 ^ 31 -> 0 <= H <= 2 ^ 31 ->
  exists d fontSize textY,
    doc (POST_generate_qr_pdf P AUTH_SECRET dirname w body) = Some d /\
    In (PDF.FontSize fontSize) (PDF.ops d) /\
    In (PDF.Text (get body "url") 0 textY "center" W) (PDF.ops d) /\
    0 <= fontSize <= W /\ (fontSize = 0 <-> W < 17) /\
    0 <= textY <= H /\ (textY < H <-> 6 <= H).
Proof.
  intros Hvalid HW HH.
  destruct (serve_valid P AUTH_SECRET dirname w body tmpl W H Hvalid)
    as (qr & img & _ & _ & _ & Hdoc & _).
  cbv zeta in Hdoc.
  do 3 eexists. split; [exact Hdoc|]. cbn [PDF.ops].
  split; [do 2 right; left; reflexivity|].
  split; [do 3 right; left; reflexivity|].
  rewrite (Binary64Facts.Math_round_times_0_03 W HW).
  rewrite (Binary64Facts.Math_round_times_0_9 H HH).
  pose proof (Z.div_mod (6 * W + 100) 200 ltac:(lia)).
  pose proof (Z.mod_pos_bound (6 * W + 100) 200 ltac:(lia)).
  pose proof (Z.div_mod (18 * H + 10) 20 ltac:(lia)).
  pose proof (Z.mod_pos_bound (18 * H + 10) 20 ltac:(lia)).
  repeat split; lia.
Qed.

Lemma text_geometry_within_page_witness :
  valid_request Demo.platform Demo.secret Demo.dir 1700000000000 Demo.good
    Demo.template 1000 1414 /\
  0 <= 1000 <= 2 ^ 31 /\ 0 <= 1414 <= 2 ^ 31 /\
  exists d fontSize textY,
    doc (Demo.serve Demo.good) = Some d /\
    In (PDF.FontSize fontSize) (PDF.ops d) /\
    In (PDF.Text (get Demo.good "url") 0 textY "center" 1000) (PDF.ops d) /\
    0 <= fontSize <= 1000 /\ (fontSize = 0 <-> 1000 < 17) /\
    0 <= textY <= 1414 /\ (textY < 1414 <-> 6 <= 1414).
Proof.
  split; [apply demo_good_is_valid|]. split; [lia|]. split; [lia|].
  apply (text_geometry_within_page Demo.platform Demo.secret Demo.dir
           1700000000000 Demo.good Demo.template 1000 1414);
    [apply demo_good_is_valid | lia | lia].
Defined.

(** How the handler body leaves a request: with a last log entry that
    names the outcome, and the response still open exactly when the
    document has been piped and ended. *)
Lemma handler_end_state
    (P : Platform) (AUTH_SECRET : option string) (dirname : string)
    (w : World P) (body : gmap string JsValue) :
  exists l c sc hs sn fin dopt e,
    snd (handler P AUTH_SECRET dirname w body initial_state)
      = {| log := l; calls := c;
           res := {| statusCode := sc; headers := hs; sent := sn;
                     finished := fin |};
           doc := dopt |} /\
    last l = Some e /\
    ((Log.level e = "info" /\
      Log.message e = "PDF generation completed successfully" /\
      sc = 200 /\ fin = false /\
      exists o ops, dopt = Some {| PDF.options := o; PDF.ops := ops;
                                   PDF.piped := true; PDF.ended := true |}) \/
     (Log.level e = "warn" /\
      Log.message e = "Validation failed - missing parameters" /\
      sc = 400 /\ fin = true /\ dopt = None) \/
     (Log.level e = "warn" /\
      Log.message e = "Authentication failed - invalid secret" /\
      sc = 401 /\ fin = true /\ dopt = None) \/
     (Log.level e = "error" /\
      Log.message e = "Error during PDF generation" /\
      sc = 500 /\ fin = true)).
Proof.
  enter_handler body AUTH_SECRET;
    try (do 8 eexists; split; [reflexivity|]; split; [reflexivity|];
         first [ right; left; repeat split; fail
               | right; right; left; repeat split; fail ]).
  repeat next_stage;
    (do 8 eexists; split; [reflexivity|]; split; [reflexivity|]);
    first [ left; repeat split; do 2 eexists; reflexivity
          | right; right; right; repeat split ].
Qed.

(** X10: the last line the process logs for a request tells how it
    ended.  It is the [info] entry "PDF generation completed
    successfully" for status 200, a [warn] entry for the rejections 400
    and 401, and the [error] entry "Error during PDF generation" for a
    500 answer given before a document existed or was piped; in these
    cases the process goes on.  When the failure came after [doc.pipe],
    the 500 answer has ended the response the document still writes to:
    the last entry is the [error] entry "Uncaught exception" of the
    process-level handler, after the entry "Error during PDF
    generation", and the process exits with code 1. *)
Theorem last_log_entry_tells_the_outcome
    (P : Platform) (AUTH_SECRET : option string) (dirname : string)
    (w : World P) (body : gmap string JsValue) :
  let st := POST_generate_qr_pdf P AUTH_SECRET dirname w body in
  let after := request_and_after P AUTH_SECRET dirname w body in
  exists e,
    last (output after) = Some e /\
    ((Log.level e = "info" /\
      Log.message e = "PDF generation completed successfully" /\
      statusCode (res st) = 200 /\ output after = log st /\
      exit_code after = None) \/
     (Log.level e = "warn" /\
      Log.message e = "Validation failed - missing parameters" /\
      statusCode (res st) = 400 /\ output after = log st /\
      exit_code after = None) \/
     (Log.level e = "warn" /\
      Log.message e = "Authentication failed - invalid secret" /\
      statusCode (res st) = 401 /\ output after = log st /\
      exit_code after = None) \/
     (Log.level e = "error" /\
      Log.message e = "Error during PDF generation" /\
      statusCode (res st) = 500 /\ output after = log st /\
      (forall d, doc st = Some d -> PDF.piped d = false) /\
      exit_code after = None) \/
     (Log.level e = "error" /\
      Log.message e = "Uncaught exception" /\
      statusCode (res st) = 500 /\
      (exists d, doc st = Some d /\ PDF.piped d = true) /\
      (exists e', last (log st) = Some e' /\
                  Log.message e' = "Error during PDF generation" /\
                  output after = log st ++ [e]) /\
      exit_code after = Some 1)).
Proof.
  cbv zeta. unfold request_and_after, POST_generate_qr_pdf.
  destruct (handler_end_state P AUTH_SECRET dirname w body)
    as (l & c & sc & hs & sn & fin & dopt & e & -> & Hlast & Hend).
  unfold deliver, on_uncaughtException. state_simpl.
  destruct Hend as [(Hlevel & Hmsg & -> & -> & o & ops & ->)
                   |[(Hlevel & Hmsg & -> & -> & ->)
                   |[(Hlevel & Hmsg & -> & -> & ->)
                   |(Hlevel & Hmsg & -> & ->)]]];
    state_simpl; cbn [output exit_code].
  - exists e. split; [exact Hlast|]. left. repeat split; assumption.
  - exists e. split; [exact Hlast|]. right. left. repeat split; assumption.
  - exists e. split; [exact Hlast|]. do 2 right. left.
    repeat split; assumption.
  - destruct dopt as [[o ops [|] ended]|]; state_simpl; cbn [output exit_code].
    + eexists. split; [apply last_snoc|]. do 4 right.
      split; [reflexivity|]. split; [reflexivity|]. split; [reflexivity|].
      split; [eexists; split; reflexivity|].
      split; [|reflexivity].
      exists e. split; [exact Hlast|]. split; [exact Hmsg|reflexivity].
    + exists e. split; [exact Hlast|]. do 3 right. left.
      repeat split; try assumption.
      intros d Hd. injection Hd as <-. reflexivity.
    + exists e. split; [exact Hlast|]. do 3 right. left.
      repeat split; try assumption.
      intros d Hd. discriminate Hd.
Qed.

(** X11: the second log entry of every request, also of one that is
    then rejected with 400 or 401, is the [debug] entry
    "Raw request body received" holding the whole request body, the
    [authSecret] it carries included. *)
Theorem request_body_is_logged
    (P : Platform) (AUTH_SECRET : option string) (dirname : string)
    (w : World P) (body : gmap string JsValue) :
  exists e,
    log (POST_generate_qr_pdf P AUTH_SECRET dirname w body) !! 1%nat = Some e /\
    Log.level e = "debug" /\
    Log.message e = "Raw request body received" /\
    In ("body", JObject body) (Log.meta e).
Proof.
  enter_handler body AUTH_SECRET;
    try (eexists; split; [reflexivity|];
         split; [reflexivity|]; split; [reflexivity|];
         right; left; reflexivity).
  repeat next_stage;
    (eexists; split; [reflexivity|];
     split; [reflexivity|]; split; [reflexivity|];
     right; left; reflexivity).
Qed.

(** X12: when the encoder raises an error for an authenticated request,
    the message of that error is written to the log, in an [error] entry
    "Error generating QR code" together with the URL, while the response
    carries the fixed message "Failed to generate QR code" whatever the
    encoder said. *)
Theorem encoder_error_is_logged_not_returned
    (P : Platform) (AUTH_SECRET : option string) (dirname : string)
    (w : World P) (body : gmap string JsValue) (e : JsError) :
  fields_present body ->
  secret_matches AUTH_SECRET body ->
  encoder_throws P w (get body "url") e ->
  let st := POST_generate_qr_pdf P AUTH_SECRET dirname w body in
  sent (res st)
    = [JsonText (obj [("error", JString "Failed to process image");
                      ("details", JString "Failed to generate QR code")])] /\
  In {| Log.timestamp := Date_now P w;
        Log.level := "error";
        Log.message := "Error generating QR code";
        Log.meta := [("error", JString (message e));
                     ("url", get body "url")] |}
     (log st).
Proof.
  intros [Hu Ha] Heq Hqr st. subst st.
  unfold secret_matches in Heq. unfold encoder_throws in Hqr.
  run_handler. rewrite Hu, Ha, Heq. state_simpl.
  rewrite Hqr. state_simpl.
  split; [reflexivity|]. find_in_list.
Qed.

Lemma encoder_error_is_logged_not_returned_witness :
  let url := JString (String.concat "" (List.repeat "0123456789" 130)) in
  let body := Demo.request url (JString "s3cret") in
  let e := Demo.failure
             "The amount of data is too big to be stored in a QR Code" in
  fields_present body /\
  secret_matches Demo.secret body /\
  encoder_throws Demo.platform 1700000000000 (get body "url") e /\
  sent (res (Demo.serve body))
    = [JsonText (obj [("error", JString "Failed to process image");
                      ("details", JString "Failed to generate QR code")])].
Proof.
  cbv zeta.
  set (body := Demo.request
                 (JString (String.concat "" (List.repeat "0123456789" 130)))
                 (JString "s3cret")).
  assert (Hp : fields_present body) by (split; vm_compute; reflexivity).
  assert (Hs : secret_matches Demo.secret body) by (vm_compute; reflexivity).
  assert (He : encoder_throws Demo.platform 1700000000000 (get body "url")
                 (Demo.failure
                    "The amount of data is too big to be stored in a QR Code"))
    by (vm_compute; reflexivity).
  split; [exact Hp|]. split; [exact Hs|]. split; [exact He|].
  exact (proj1 (encoder_error_is_logged_not_returned Demo.platform Demo.secret
                  Demo.dir 1700000000000 body _ Hp Hs He)).
Defined.

(** X13: every document the handler constructs, finished or not, has
    the page size the template's metadata report and margin 0, and what
    has been drawn on it is an initial part of the fixed sequence image,
    font, font size, text; an ended document carries all four. *)
Theorem document_follows_the_template
    (P : Platform) (AUTH_SECRET : option string) (dirname : string)
    (w : World P) (body : gmap string JsValue) (d : PDF.Document) :
  doc (POST_generate_qr_pdf P AUTH_SECRET dirname w body) = Some d ->
  exists tmpl W H img,
    template_is P dirname w tmpl W H /\
    PDF.options d = {| PDF.size := (W, H); PDF.margin := 0 |} /\
    PDF.ops d `prefix_of`
      [PDF.Image img 0 0 W H;
       PDF.Font "Helvetica-Bold";
       PDF.FontSize
         (Binary64.Math_round
            (Binary64.mul (Binary64.of_Z W) Binary64.lit_0_03));
       PDF.Text (get body "url") 0
         (Binary64.Math_round
            (Binary64.mul (Binary64.of_Z H) Binary64.lit_0_9))
         "center" W] /\
    (PDF.ended d = true -> List.length (PDF.ops d) = 4%nat).
Proof.
  enter_handler body AUTH_SECRET; try discriminate.
  repeat next_stage; intros Hdoc; try discriminate Hdoc;
    injection Hdoc as <-;
    do 3 eexists;
    match goal with
    | Himg : sharp_composite _ _ _ _ = Return ?img |- _ => exists img
    end;
    (split; [split; eassumption|]);
    (split; [reflexivity|]);
    cbn [PDF.ops PDF.ended];
    (split; [eexists; cbn [app]; reflexivity|]);
    first [reflexivity | discriminate].
Qed.

Lemma document_follows_the_template_witness :
  exists d,
    doc (POST_generate_qr_pdf Demo.platform_no_text Demo.secret Demo.dir
           1700000000000 Demo.good) = Some d /\
    PDF.options d = {| PDF.size := (1000, 1414); PDF.margin := 0 |} /\
    List.length (PDF.ops d) = 3%nat /\ PDF.ended d = false.
Proof.
  destruct (doc (POST_generate_qr_pdf Demo.platform_no_text Demo.secret
                   Demo.dir 1700000000000 Demo.good)) as [d|] eqn:Hdoc;
    [|vm_compute in Hdoc; discriminate Hdoc].
  exists d. split; [reflexivity|].
  destruct (document_follows_the_template Demo.platform_no_text Demo.secret
              Demo.dir 1700000000000 Demo.good d Hdoc)
    as (tmpl & W & H & img & [Hread Hmeta] & Hopts & _ & _).
  assert (Htmpl : tmpl = Demo.template).
  { vm_compute in Hread. now injection Hread. }
  subst tmpl. vm_compute in Hmeta. injection Hmeta as <- <-.
  split; [exact Hopts|].
  vm_compute in Hdoc. injection Hdoc as <-. split; reflexivity.
Defined.

(** X14: every log entry the handler writes carries the request
    identifier [Date.now().toString()] as its first field; the one entry
    without it is the error entry written inside [generateQRCode]. *)
Theorem log_entries_carry_the_request_id
    (P : Platform) (AUTH_SECRET : option string) (dirname : string)
    (w : World P) (body : gmap string JsValue) :
  Forall (fun e =>
            head (Log.meta e)
              = Some ("requestId", JString (pretty (Date_now P w))) \/
            (Log.message e = "Error generating QR code" /\
             Log.level e = "error"))
         (log (POST_generate_qr_pdf P AUTH_SECRET dirname w body)).
Proof.
  enter_handler body AUTH_SECRET;
    try (repeat (constructor; [left; reflexivity|]); constructor).
  repeat next_stage;
    repeat (constructor;
            [first [left; reflexivity | right; split; reflexivity]|]);
    constructor.
Qed.
